(** * HPO-MCP-Server: the hierarchy aggregation and comparison layer

    A shallow embedding of [src/utils/api-client.ts] (the HTTP client and the
    identifier formatter) and of the four aggregate handlers of
    [src/handlers/hpo-handlers.ts] (path, comparison, statistics, batch),
    with the properties the specification states about them.

    Conventions.  A JavaScript string is a [string]; one character stands for
    one UTF-16 code unit of the data (lengths are only ever taken of data
    strings).  A JavaScript number that the handlers use as a count or window
    bound is a [nat].  An optional field is an [option]. *)

From Stdlib Require Import Ascii DecimalString.
From Stdlib Require String.
From stdpp Require Import base decidable option list strings gmap.


(** ** JavaScript string primitives used by the sources *)

Module Js.

(** [String.prototype.startsWith]. *)
Definition startsWith (s p : string) : bool := String.prefix p s.

(** One character matched by [\d] (ASCII digits only). *)
Definition is_digit (c : ascii) : bool :=
  (48 <=? nat_of_ascii c) && (nat_of_ascii c <=? 57).

Fixpoint all_digit (s : string) : bool :=
  match s with
  | EmptyString => true
  | String c s' => is_digit c && all_digit s'
  end.

(** [/^\d+$/.test(s)]: at least one character, all of them digits. *)
Definition test_digits (s : string) : bool :=
  match s with
  | EmptyString => false
  | String _ _ => all_digit s
  end.

(** [/^\d{7}$/.test(s)]. *)
Definition test_7digits (s : string) : bool :=
  (String.length s =? 7) && all_digit s.

(** [/^HP:\d{7}$/.test(s)]. *)
Definition test_canonical (s : string) : bool :=
  match s with
  | String "H"%char (String "P"%char (String ":"%char d)) => test_7digits d
  | _ => false
  end.

Fixpoint repeat_char (c : ascii) (n : nat) : string :=
  match n with
  | O => EmptyString
  | S n' => String c (repeat_char c n')
  end.

(** [s.padStart(n, c)] for a one-character filler [c]. *)
Definition padStart (s : string) (n : nat) (c : ascii) : string :=
  repeat_char c (n - String.length s) +:+ s.

(** [s.substring(0, n)]. *)
Definition substring0 (s : string) (n : nat) : string := String.substring 0 n s.

(** Template interpolation of a non-negative integer. *)
Definition show (n : nat) : string := NilEmpty.string_of_uint (Nat.to_uint n).

(** Truthiness of an optional string: present and not empty. *)
Definition truthy (o : option string) : bool :=
  match o with
  | Some (String _ _) => true
  | _ => false
  end.

(** [o || d] on an optional string. *)
Definition or_str (o : option string) (d : string) : string :=
  match o with
  | Some (String c s) => String c s
  | _ => d
  end.

(** [o || []] on an optional array (every array is truthy). *)
Definition or_nil {A} (o : option (list A)) : list A :=
  match o with
  | Some l => l
  | None => []
  end.

(** Truthiness of a number: not zero. *)
Definition truthy_num (o : option nat) : bool :=
  match o with
  | Some (S _) => true
  | _ => false
  end.

(** Template interpolation of an optional string. *)
Definition show_str (o : option string) : string :=
  match o with
  | Some s => s
  | None => "undefined"
  end.

(** [a || b] on optional strings. *)
Definition or_else (a b : option string) : option string :=
  if truthy a then a else b.

(** [s.repeat(n)]. *)
Fixpoint repeat (s : string) (n : nat) : string :=
  match n with
  | O => EmptyString
  | S n' => s +:+ repeat s n'
  end.

(** The line feed of the template literals. *)
Definition nl : string := String "010"%char EmptyString.

(** [parts.join(sep)]. *)
Definition join (sep : string) (parts : list string) : string :=
  String.concat sep parts.

(** [hay.includes(needle)]. *)
Fixpoint includes (hay needle : string) : bool :=
  String.prefix needle hay ||
  match hay with
  | EmptyString => false
  | String _ hay' => includes hay' needle
  end.

End Js.

(** ** [src/types/hpo.ts] *)

Record SimpleOntologyTerm := {
  st_id : string;
  st_name : string
}.

Record OntologyTerm := {
  id : string;
  name : string;
  definition : option string;
  comment : option string;
  synonyms : option (list string);
  xrefs : option (list string);
  alternativeIds : option (list string);
  isObsolete : option bool;
  replacement : option string;
  subset : option (list string);
  children : option (list SimpleOntologyTerm);
  parents : option (list SimpleOntologyTerm);
  ancestors : option (list SimpleOntologyTerm);
  descendants : option (list SimpleOntologyTerm)
}.

Record HierarchyParams := {
  hp_id : string;
  hp_max : option nat;
  hp_offset : option nat
}.

Record ApiResponse (T : Type) := {
  data : option T;
  error : option string;
  status : nat
}.
Arguments data {T} _.
Arguments error {T} _.
Arguments status {T} _.

(** ** [src/utils/api-client.ts]: the identifier formatter *)

Definition formatHPOId (id : string) : string :=
  if Js.startsWith id "HP:" then id
  else if Js.test_digits id then "HP:" +:+ Js.padStart id 7 "0"%char
  else id.

Definition isValidHPOId (id : string) : bool :=
  Js.test_canonical id || Js.test_7digits id.

(** ** The remote source as seen through axios

    Every request the client issues is appended to a log; the remote answers
    the [n]-th request of an operation ([n] counted from 0) through an
    oracle, so that two requests for the same resource may well be answered
    differently.  [Promise.all([f(a), g(b)])] starts [f(a)] and [g(b)] in
    array order, each running synchronously up to its [client.get], and hands
    the results back by position: it is the sequential composition of the
    calls as far as requests issued and values returned are concerned. *)

Inductive Relation := Ancestors | Parents | Children | Descendants.

Inductive Request :=
| GetTerm (formattedId : string)
| GetRelated (rel : Relation) (formattedId : string) (max offset : option nat).

(** What the response interceptor receives on a rejected request. *)
Inductive AxiosError :=
| ErrResponse (status : nat) (dataMessage : option string) (message : string)
| ErrRequest (message : string)
| ErrSetup (message : string).

Inductive AxiosResult (B : Type) :=
| Fulfilled (status : nat) (body : B)
| Rejected (e : AxiosError).
Arguments Fulfilled {B} _ _.
Arguments Rejected {B} _.

(** Payload of a hierarchy endpoint, as far as
    [response.data.terms || response.data || []] tells its shapes apart:
    [null]; a falsy payload other than [null], such as an empty body; an
    object with a [terms] array; a bare array. *)
Inductive ListBody :=
| ListNull
| ListBlank
| ListWrapped (terms : list SimpleOntologyTerm)
| ListBare (terms : list SimpleOntologyTerm).

Record Remote := {
  term_endpoint : nat -> string -> AxiosResult (option OntologyTerm);
  list_endpoint : nat -> Relation -> string -> option nat -> option nat ->
                  AxiosResult ListBody
}.

Definition Api (A : Type) : Type := Remote -> list Request -> A * list Request.

#[export] Instance Api_ret : MRet Api := fun A x _ log => (x, log).

#[export] Instance Api_bind : MBind Api := fun A B f m r log =>
  let (a, log') := m r log in f a r log'.

(** [Promise.all(xs.map(f))]. *)
Fixpoint promise_all_map {A B} (f : A -> Api B) (xs : list A) : Api (list B) :=
  match xs with
  | [] => mret []
  | x :: xs' => y ← f x; ys ← promise_all_map f xs'; mret (y :: ys)
  end.

(** The handler, run as one operation against a remote: its completion and
    the requests it issued, in order. *)
Definition run {A} (m : Api A) (r : Remote) : A * list Request := m r [].

(** The error handler of the response interceptor: the message of the
    [Error] it throws. *)
Definition interceptor_message (e : AxiosError) : string :=
  match e with
  | ErrResponse st dm m =>
      "HPO API Error (" +:+ Js.show st +:+ "): " +:+ Js.or_str dm m
  | ErrRequest _ =>
      "HPO API is not responding. Please check your internet connection."
  | ErrSetup m => "Request error: " +:+ m
  end.

(** Message of the [TypeError] raised by [response.data.terms] on a [null]
    payload (V8's wording). *)
Definition null_terms_message : string :=
  "Cannot read properties of null (reading 'terms')".

Definition failure {T} (msg : string) : ApiResponse T :=
  {| data := None; error := Some msg; status := 500 |}.

Definition client_get_term (formattedId : string)
  : Api (AxiosResult (option OntologyTerm)) :=
  fun r log => (term_endpoint r (List.length log) formattedId,
                log ++ [GetTerm formattedId]).

Definition client_get_related (rel : Relation) (formattedId : string)
    (max offset : option nat) : Api (AxiosResult ListBody) :=
  fun r log => (list_endpoint r (List.length log) rel formattedId max offset,
                log ++ [GetRelated rel formattedId max offset]).

(** What [getTerm] returns for an outcome of its request: the [try] branch
    on a response, the [catch] branch on a rejection. *)
Definition term_response (res : AxiosResult (option OntologyTerm))
  : ApiResponse OntologyTerm :=
  match res with
  | Fulfilled st body => {| data := body; error := None; status := st |}
  | Rejected e => failure (interceptor_message e)
  end.

Definition getTerm (id : string) : Api (ApiResponse OntologyTerm) :=
  let formattedId := formatHPOId id in
  res ← client_get_term formattedId;
  mret (term_response res).

(** [if (params.max) searchParams.append('max', ...)]: a parameter that is
    absent or zero is left out of the query string. *)
Definition query_param (o : option nat) : option nat :=
  if Js.truthy_num o then o else None.

(** What a hierarchy getter returns for an outcome of its request;
    [response.data.terms || response.data || []] raises on a [null] payload,
    which the [catch] turns into a failure like any rejection. *)
Definition list_response (res : AxiosResult ListBody)
  : ApiResponse (list SimpleOntologyTerm) :=
  match res with
  | Fulfilled st ListNull => failure null_terms_message
  | Fulfilled st ListBlank => {| data := Some []; error := None; status := st |}
  | Fulfilled st (ListWrapped l) => {| data := Some l; error := None; status := st |}
  | Fulfilled st (ListBare l) => {| data := Some l; error := None; status := st |}
  | Rejected e => failure (interceptor_message e)
  end.

(** The common body of [getAncestors], [getParents], [getChildren] and
    [getDescendants], which differ in the path segment only. *)
Definition getRelated (rel : Relation) (params : HierarchyParams)
  : Api (ApiResponse (list SimpleOntologyTerm)) :=
  let formattedId := formatHPOId (hp_id params) in
  res ← client_get_related rel formattedId
          (query_param (hp_max params)) (query_param (hp_offset params));
  mret (list_response res).

Definition getAncestors := getRelated Ancestors.
Definition getParents := getRelated Parents.
Definition getChildren := getRelated Children.
Definition getDescendants := getRelated Descendants.

(** ** [src/handlers/hpo-handlers.ts] *)

Record ToolResult := {
  text : string;
  isError : bool
}.

(** A handler either returns a result or throws on a missing argument. *)
Inductive Completion :=
| Return (res : ToolResult)
| Throw (message : string).

Definition reply (t : string) : Completion :=
  Return {| text := t; isError := false |}.

Definition reply_error (t : string) : Completion :=
  Return {| text := t; isError := true |}.

(** [!args.id] on a string argument (the arguments are typed here, which
    leaves the [typeof] tests of the guards without an object). *)
Definition missing (arg : string) : bool :=
  match arg with
  | EmptyString => true
  | String _ _ => false
  end.

(** *** [getHPOTermPath] *)

Definition pathTerms (ancestors : list SimpleOntologyTerm) (term : OntologyTerm)
  : list SimpleOntologyTerm :=
  rev ancestors ++ [{| st_id := id term; st_name := name term |}].

Definition path_line (len index : nat) (t : SimpleOntologyTerm) : string :=
  Js.repeat "  " index +:+ (if index =? len - 1 then "→" else "├") +:+ " "
    +:+ st_id t +:+ ": " +:+ st_name t.

Definition formattedPath (path : list SimpleOntologyTerm) : string :=
  Js.join Js.nl (imap (path_line (List.length path)) path).

Definition path_text (args_id : string) (path : list SimpleOntologyTerm) : string :=
  "Hierarchical path to " +:+ args_id +:+ ":" +:+ Js.nl +:+ Js.nl
    +:+ formattedPath path +:+ Js.nl +:+ Js.nl
    +:+ "Path depth: " +:+ Js.show (List.length path - 1) +:+ " levels".

Definition getHPOTermPath (args_id : string) : Api Completion :=
  if missing args_id then
    mret (Throw "HPO ID parameter is required and must be a string")
  else
    termResult ← getTerm args_id;
    if Js.truthy (error termResult) then
      mret (reply_error ("Error retrieving term " +:+ args_id +:+ ": "
                           +:+ Js.show_str (error termResult)))
    else
      ancestorsResult ←
        getAncestors {| hp_id := args_id; hp_max := Some 200; hp_offset := Some 0 |};
      if Js.truthy (error ancestorsResult) then
        mret (reply_error ("Error retrieving ancestors for " +:+ args_id +:+ ": "
                             +:+ Js.show_str (error ancestorsResult)))
      else
        let ancestors := Js.or_nil (data ancestorsResult) in
        match data termResult with
        | None => mret (reply ("Term " +:+ args_id +:+ " not found"))
        | Some term => mret (reply (path_text args_id (pathTerms ancestors term)))
        end.

(** *** [compareHPOTerms] *)

(** [new Set(ancestors1.map(a => a.id))]. *)
Definition ancestors1Ids (ancestors1 : list SimpleOntologyTerm) : gset string :=
  list_to_set (map st_id ancestors1).

Definition commonAncestors (ancestors1 ancestors2 : list SimpleOntologyTerm)
  : list SimpleOntologyTerm :=
  List.filter (fun a => bool_decide (st_id a ∈ ancestors1Ids ancestors1)) ancestors2.

Definition relationship (term1 term2 : string)
    (ancestors1 ancestors2 : list SimpleOntologyTerm) : string :=
  if existsb (fun a => String.eqb (st_id a) term2) ancestors1 then
    term1 +:+ " is a descendant of " +:+ term2
  else if existsb (fun a => String.eqb (st_id a) term1) ancestors2 then
    term2 +:+ " is a descendant of " +:+ term1
  else if 0 <? List.length (commonAncestors ancestors1 ancestors2) then
    "Related through common ancestors"
  else
    "No direct relationship".

Definition ancestor_bullet (a : SimpleOntologyTerm) : string :=
  "  • " +:+ st_id a +:+ ": " +:+ st_name a +:+ Js.nl.

Definition common_section (common : list SimpleOntologyTerm) : string :=
  if 0 <? List.length common then
    "**Common Ancestors (" +:+ Js.show (List.length common) +:+ "):**" +:+ Js.nl
      +:+ Js.join "" (map ancestor_bullet (take 10 common))
      +:+ (if 10 <? List.length common
           then "  ... and " +:+ Js.show (List.length common - 10) +:+ " more" +:+ Js.nl
           else "")
  else
    "**Common Ancestors:** None found" +:+ Js.nl.

Definition compare_text (term1 term2 name1 name2 relationship : string)
    (common : list SimpleOntologyTerm) : string :=
  "**Comparison of HPO Terms:**" +:+ Js.nl +:+ Js.nl
    +:+ "**Term 1:** " +:+ term1 +:+ ": " +:+ name1 +:+ Js.nl
    +:+ "**Term 2:** " +:+ term2 +:+ ": " +:+ name2 +:+ Js.nl +:+ Js.nl
    +:+ "**Relationship:** " +:+ relationship +:+ Js.nl +:+ Js.nl
    +:+ common_section common.

Definition compareHPOTerms (term1 term2 : string) : Api Completion :=
  if missing term1 || missing term2 then
    mret (Throw "Both term1 and term2 parameters are required and must be strings")
  else
    term1Result ← getTerm term1;
    term2Result ← getTerm term2;
    if Js.truthy (error term1Result) || Js.truthy (error term2Result) then
      mret (reply_error
              ("Error retrieving terms: "
                 +:+ Js.show_str (Js.or_else (error term1Result) (error term2Result))))
    else
      match data term1Result, data term2Result with
      | Some data1, Some data2 =>
          ancestors1Result ←
            getAncestors {| hp_id := term1; hp_max := Some 200; hp_offset := Some 0 |};
          ancestors2Result ←
            getAncestors {| hp_id := term2; hp_max := Some 200; hp_offset := Some 0 |};
          let ancestors1 := Js.or_nil (data ancestors1Result) in
          let ancestors2 := Js.or_nil (data ancestors2Result) in
          mret (reply (compare_text term1 term2 (name data1) (name data2)
                         (relationship term1 term2 ancestors1 ancestors2)
                         (commonAncestors ancestors1 ancestors2)))
      | _, _ =>
          mret (reply ("One or both terms not found: " +:+ term1 +:+ ", " +:+ term2))
      end.

(** *** [getHPOTermStats] *)

(** [s.substring(0, n)] followed by an ellipsis when [s] is longer. *)
Definition excerpt (s : string) (n : nat) : string :=
  Js.substring0 s n +:+ (if n <? String.length s then "..." else "").

(** [xs?.length || 0]. *)
Definition count_opt (xs : option (list string)) : nat :=
  List.length (Js.or_nil xs).

Definition is_true_opt (b : option bool) : bool :=
  match b with
  | Some true => true
  | _ => false
  end.

Definition stats_text (args_id : string) (term : OntologyTerm)
    (ancestors descendants parents children : list SimpleOntologyTerm) : string :=
  "**Statistics for " +:+ args_id +:+ ":**" +:+ Js.nl +:+ Js.nl
    +:+ "**Name:** " +:+ name term +:+ Js.nl +:+ Js.nl
    +:+ (if Js.truthy (definition term)
         then "**Definition:** " +:+ excerpt (Js.show_str (definition term)) 200
                +:+ Js.nl +:+ Js.nl
         else "")
    +:+ "**Hierarchy Statistics:**" +:+ Js.nl
    +:+ "  • Ancestors: " +:+ Js.show (List.length ancestors) +:+ Js.nl
    +:+ "  • Direct Parents: " +:+ Js.show (List.length parents) +:+ Js.nl
    +:+ "  • Direct Children: " +:+ Js.show (List.length children) +:+ Js.nl
    +:+ "  • All Descendants: " +:+ Js.show (List.length descendants) +:+ Js.nl
    +:+ "  • Depth from Root: " +:+ Js.show (List.length ancestors) +:+ Js.nl +:+ Js.nl
    +:+ "**Term Properties:**" +:+ Js.nl
    +:+ "  • Synonyms: " +:+ Js.show (count_opt (synonyms term)) +:+ Js.nl
    +:+ "  • Cross-references: " +:+ Js.show (count_opt (xrefs term)) +:+ Js.nl
    +:+ "  • Alternative IDs: " +:+ Js.show (count_opt (alternativeIds term)) +:+ Js.nl
    +:+ "  • Obsolete: " +:+ (if is_true_opt (isObsolete term) then "Yes" else "No")
    +:+ Js.nl
    +:+ (if Js.truthy (comment term)
         then Js.nl +:+ "**Comment:** " +:+ excerpt (Js.show_str (comment term)) 150
         else "").

Definition getHPOTermStats (args_id : string) : Api Completion :=
  if missing args_id then
    mret (Throw "HPO ID parameter is required and must be a string")
  else
    termResult ← getTerm args_id;
    ancestorsResult ←
      getAncestors {| hp_id := args_id; hp_max := Some 1000; hp_offset := Some 0 |};
    descendantsResult ←
      getDescendants {| hp_id := args_id; hp_max := Some 1000; hp_offset := Some 0 |};
    parentsResult ←
      getParents {| hp_id := args_id; hp_max := Some 100; hp_offset := Some 0 |};
    childrenResult ←
      getChildren {| hp_id := args_id; hp_max := Some 100; hp_offset := Some 0 |};
    if Js.truthy (error termResult) then
      mret (reply_error ("Error retrieving term " +:+ args_id +:+ ": "
                           +:+ Js.show_str (error termResult)))
    else
      match data termResult with
      | None => mret (reply ("Term " +:+ args_id +:+ " not found"))
      | Some term =>
          let ancestors := Js.or_nil (data ancestorsResult) in
          let descendants := Js.or_nil (data descendantsResult) in
          let parents := Js.or_nil (data parentsResult) in
          let children := Js.or_nil (data childrenResult) in
          mret (reply (stats_text args_id term ancestors descendants parents children))
      end.

(** *** [batchGetHPOTerms] *)

Record BatchEntry := {
  be_id : string;
  be_success : bool;
  be_data : option OntologyTerm;
  be_error : option string
}.

(** The object the callback mapped over [args.ids] returns from its [try]. *)
Definition batch_entry (id : string) (result : ApiResponse OntologyTerm) : BatchEntry :=
  {| be_id := id;
     be_success := negb (Js.truthy (error result));
     be_data := data result;
     be_error := error result |}.

(** The callback itself; [getTerm] catches every exception, so the [catch]
    of the callback is never entered. *)
Definition batch_fetch (id : string) : Api BatchEntry :=
  result ← getTerm id;
  mret (batch_entry id result).

Definition successful (results : list BatchEntry) : list BatchEntry :=
  List.filter be_success results.

Definition failed (results : list BatchEntry) : list BatchEntry :=
  List.filter (fun r => negb (be_success r)) results.

Definition success_item (result : BatchEntry) : string :=
  let term := be_data result in
  "• " +:+ be_id result +:+ ": "
    +:+ Js.or_str (name <$> term) "Unknown" +:+ Js.nl
    +:+ (if Js.truthy (term ≫= definition)
         then "  Definition: " +:+ excerpt (Js.show_str (term ≫= definition)) 100
                +:+ Js.nl
         else "")
    +:+ Js.nl.

Definition failure_item (result : BatchEntry) : string :=
  "• " +:+ be_id result +:+ ": " +:+ Js.show_str (be_error result) +:+ Js.nl.

Definition batch_text (total : nat) (ok ko : list BatchEntry) : string :=
  "**Batch Processing Results:**" +:+ Js.nl +:+ Js.nl
    +:+ "**Summary:** " +:+ Js.show (List.length ok) +:+ "/" +:+ Js.show total
    +:+ " terms retrieved successfully" +:+ Js.nl +:+ Js.nl
    +:+ (if 0 <? List.length ok
         then "**Successfully Retrieved Terms:**" +:+ Js.nl
                +:+ Js.join "" (map success_item ok)
         else "")
    +:+ (if 0 <? List.length ko
         then "**Failed Terms:**" +:+ Js.nl +:+ Js.join "" (map failure_item ko)
         else "").

Definition batchGetHPOTerms (args_ids : list string) : Api Completion :=
  if List.length args_ids =? 0 then
    mret (reply "No IDs provided")
  else if 20 <? List.length args_ids then
    mret (reply "Maximum 20 terms can be processed at once")
  else
    results ← promise_all_map batch_fetch args_ids;
    mret (reply (batch_text (List.length args_ids) (successful results) (failed results))).

(** ** Vocabulary for stating the properties *)

(** The response the client hands back for the [n]-th request of an
    operation, when that request is [getTerm id]. *)
Definition fetched_term (r : Remote) (n : nat) (id : string)
  : ApiResponse OntologyTerm :=
  term_response (term_endpoint r n (formatHPOId id)).

(** The same for a hierarchy request with window [(max, offset)]. *)
Definition fetched_related (r : Remote) (n : nat) (rel : Relation) (id : string)
    (max offset : nat) : ApiResponse (list SimpleOntologyTerm) :=
  list_response (list_endpoint r n rel (formatHPOId id)
                   (query_param (Some max)) (query_param (Some offset))).

(** A fetch succeeded with value [x] / failed / found nothing. *)
Definition fetch_ok {T} (resp : ApiResponse T) (x : T) : Prop :=
  Js.truthy (error resp) = false /\ data resp = Some x.

Definition fetch_failed {T} (resp : ApiResponse T) : Prop :=
  Js.truthy (error resp) = true.

Definition fetch_not_found {T} (resp : ApiResponse T) : Prop :=
  Js.truthy (error resp) = false /\ data resp = None.

(** The list a hierarchy fetch contributes according to the specification:
    a failed fetch degrades to the empty list, a successful one gives what
    it fetched. *)
Definition degrade (resp : ApiResponse (list SimpleOntologyTerm))
  : list SimpleOntologyTerm :=
  if Js.truthy (error resp) then [] else Js.or_nil (data resp).

(** The remote [r] with its answer to the [n]-th request replaced, should
    that request be a hierarchy request. *)
Definition answer_list (r : Remote) (n : nat) (res : AxiosResult ListBody) : Remote :=
  {| term_endpoint := term_endpoint r;
     list_endpoint := fun m rel i mx off =>
       if m =? n then res else list_endpoint r m rel i mx off |}.

(** The same for the [n]-th request when it is a term request. *)
Definition answer_term (r : Remote) (n : nat)
    (res : AxiosResult (option OntologyTerm)) : Remote :=
  {| term_endpoint := fun m i => if m =? n then res else term_endpoint r m i;
     list_endpoint := list_endpoint r |}.

(** *** Relationship verdicts (specification, section 3 and section 4.4) *)

Inductive RelationshipVerdict :=
| FirstIsDescendantOfSecond
| SecondIsDescendantOfFirst
| RelatedViaCommonAncestors
| Unrelated.

(** The subset of B's ancestor sequence whose id is present in A's set, in
    the order of B's sequence. *)
Definition common_ancestor_set (ancA ancB : list SimpleOntologyTerm)
  : list SimpleOntologyTerm :=
  filter (fun b => st_id b ∈ map st_id ancA) ancB.

(** The precedence of section 4.4, step 4, first match wins. *)
Definition classify (A B : string) (ancA ancB : list SimpleOntologyTerm)
  : RelationshipVerdict :=
  if decide (B ∈ map st_id ancA) then FirstIsDescendantOfSecond
  else if decide (A ∈ map st_id ancB) then SecondIsDescendantOfFirst
  else match common_ancestor_set ancA ancB with
       | _ :: _ => RelatedViaCommonAncestors
       | [] => Unrelated
       end.

(** The wording under which the handler reports each verdict. *)
Definition verdict_phrase (A B : string) (v : RelationshipVerdict) : string :=
  match v with
  | FirstIsDescendantOfSecond => A +:+ " is a descendant of " +:+ B
  | SecondIsDescendantOfFirst => B +:+ " is a descendant of " +:+ A
  | RelatedViaCommonAncestors => "Related through common ancestors"
  | Unrelated => "No direct relationship"
  end.

(** *** Batch outcomes *)

(** The outcomes of a batch: the [n]-th entry is built from the [n]-th id and
    from the answer to the [n]-th request, and from nothing else. *)
Definition batch_results (r : Remote) (ids : list string) : list BatchEntry :=
  imap (fun n id => batch_entry id (fetched_term r n id)) ids.

(** *** A paginating source

    The remote ontology service of section 6 of the specification, for a
    fixed hierarchy: a term request is answered with the term's record, or
    with status 404 when there is none; a hierarchy request is answered with
    the slice of the closure that the pagination window selects ([page] is
    the service's own default for an omitted [max]). *)

Definition window {A} (page : nat) (max offset : option nat) (l : list A) : list A :=
  take (default page max) (drop (default 0 offset) l).

Definition paged_source (page : nat) (terms : string -> option OntologyTerm)
    (closure : Relation -> string -> list SimpleOntologyTerm) : Remote :=
  {| term_endpoint := fun _ i =>
       match terms i with
       | Some t => Fulfilled 200 (Some t)
       | None => Rejected (ErrResponse 404 None "Request failed with status code 404")
       end;
     list_endpoint := fun _ rel i mx off =>
       Fulfilled 200 (ListBare (window page mx off (closure rel i))) |}.

(** *** A small hierarchy to run the handlers on *)

Definition plain_term (i n : string) : OntologyTerm :=
  {| id := i; name := n; definition := None; comment := None;
     synonyms := None; xrefs := None; alternativeIds := None;
     isObsolete := None; replacement := None; subset := None;
     children := None; parents := None; ancestors := None;
     descendants := None |}.

Definition ref (i n : string) : SimpleOntologyTerm :=
  {| st_id := i; st_name := n |}.

Definition all_ref := ref "HP:0000001" "All".
Definition abnormality_ref := ref "HP:0000118" "Phenotypic abnormality".
Definition nervous_ref := ref "HP:0000707" "Abnormality of the nervous system".
Definition physiology_ref := ref "HP:0012638" "Abnormal nervous system physiology".
Definition seizure_ref := ref "HP:0001250" "Seizure".
Definition head_ref := ref "HP:0000152" "Abnormality of head or neck".

Definition sample_refs : list SimpleOntologyTerm :=
  [all_ref; abnormality_ref; nervous_ref; physiology_ref; seizure_ref; head_ref].

Definition sample_terms (i : string) : option OntologyTerm :=
  (fun t => plain_term (st_id t) (st_name t)) <$>
    List.find (fun t => String.eqb (st_id t) i) sample_refs.

Definition sample_closure (rel : Relation) (i : string) : list SimpleOntologyTerm :=
  match rel with
  | Ancestors =>
      if String.eqb i "HP:0001250" then
        [physiology_ref; nervous_ref; abnormality_ref; all_ref]
      else if String.eqb i "HP:0012638" then [nervous_ref; abnormality_ref; all_ref]
      else if String.eqb i "HP:0000707" then [abnormality_ref; all_ref]
      else if String.eqb i "HP:0000152" then [abnormality_ref; all_ref]
      else if String.eqb i "HP:0000118" then [all_ref]
      else []
  | Parents =>
      if String.eqb i "HP:0001250" then [physiology_ref]
      else if String.eqb i "HP:0012638" then [nervous_ref]
      else if String.eqb i "HP:0000707" then [abnormality_ref]
      else if String.eqb i "HP:0000152" then [abnormality_ref]
      else if String.eqb i "HP:0000118" then [all_ref]
      else []
  | Children =>
      if String.eqb i "HP:0000001" then [abnormality_ref]
      else if String.eqb i "HP:0000118" then [nervous_ref; head_ref]
      else if String.eqb i "HP:0000707" then [physiology_ref]
      else if String.eqb i "HP:0012638" then [seizure_ref]
      else []
  | Descendants =>
      if String.eqb i "HP:0000001" then
        [abnormality_ref; nervous_ref; head_ref; physiology_ref; seizure_ref]
      else if String.eqb i "HP:0000118" then
        [nervous_ref; head_ref; physiology_ref; seizure_ref]
      else if String.eqb i "HP:0000707" then [physiology_ref; seizure_ref]
      else if String.eqb i "HP:0012638" then [seizure_ref]
      else []
  end.

Definition sample_source : Remote := paged_source 50 sample_terms sample_closure.

Definition timeout_error : AxiosError := ErrRequest "timeout of 30000ms exceeded".

Definition server_error : AxiosError :=
  ErrResponse 503 (Some "Service Unavailable") "Request failed with status code 503".

(** A chain of [k] ancestors above one term, nearest first. *)
Definition deep_closure (k : nat) : list SimpleOntologyTerm :=
  map (fun i => ref ("HP:" +:+ Js.padStart (Js.show i) 7 "0"%char) "level")
      (rev (seq 1 k)).

Definition deep_source (k : nat) : Remote :=
  paged_source 50 (fun i => Some (plain_term i "Leaf"))
    (fun rel _ => match rel with Ancestors => deep_closure k | _ => [] end).

(** ** The listing, lookup and validation handlers

    The handlers below take their arguments one by one: a string argument
    is the property when it is a string and the empty string otherwise
    (the guards treat the two alike), a numeric argument is the property
    when it is a number, and numbers are non-negative integers. *)

Module JsText.

(** One white-space or line-terminator code unit, as [trim] sees them
    (tab to carriage return, space, no-break space; the others lie beyond
    the characters of a [string]). *)
Definition is_space (c : ascii) : bool :=
  let n := nat_of_ascii c in
  ((9 <=? n) && (n <=? 13)) || (n =? 32) || (n =? 160).

Fixpoint trimStart (s : string) : string :=
  match s with
  | EmptyString => EmptyString
  | String c s' => if is_space c then trimStart s' else s
  end.

Fixpoint trimEnd (s : string) : string :=
  match s with
  | EmptyString => EmptyString
  | String c s' =>
      match trimEnd s' with
      | EmptyString => if is_space c then EmptyString else String c EmptyString
      | String d t => String c (String d t)
      end
  end.

(** [s.trim()]. *)
Definition trim (s : string) : string := trimEnd (trimStart s).

(** The double quote of the template literals. *)
Definition dq : string := String "034"%char EmptyString.

(** Message of the [TypeError] raised by reading property [p] of
    [undefined] (V8's wording). *)
Definition undefined_read (p : string) : string :=
  "Cannot read properties of undefined (reading '" +:+ p +:+ "')".

End JsText.

(** [args.max && typeof args.max === 'number' ? args.max : d]. *)
Definition arg_or (o : option nat) (d : nat) : nat :=
  if Js.truthy_num o then default d o else d.

(** [args.max && typeof args.max === 'number' ? Math.min(args.max, cap) : d]. *)
Definition arg_capped (o : option nat) (cap d : nat) : nat :=
  if Js.truthy_num o then Nat.min (default d o) cap else d.

(** [n || d] on a number. *)
Definition num_or (n d : nat) : nat :=
  match n with
  | O => d
  | S _ => n
  end.

(** [`• ${t.id}: ${t.name}`]. *)
Definition term_bullet (t : SimpleOntologyTerm) : string :=
  "• " +:+ st_id t +:+ ": " +:+ st_name t.

(** *** [getHPOTerm] *)

(** [`  • ${p.id}: ${p.name}`]. *)
Definition related_bullet (p : SimpleOntologyTerm) : string :=
  "  • " +:+ st_id p +:+ ": " +:+ st_name p.

(** One [if (xs && xs.length > 0) output += ...] block over a list of
    strings. *)
Definition joined_section (label : string) (xs : option (list string)) : string :=
  if 0 <? List.length (Js.or_nil xs)
  then label +:+ Js.join ", " (Js.or_nil xs) +:+ Js.nl +:+ Js.nl
  else "".

(** The same over a list of related terms. *)
Definition related_section (label : string) (xs : option (list SimpleOntologyTerm))
  : string :=
  if 0 <? List.length (Js.or_nil xs)
  then label +:+ Js.nl +:+ Js.join Js.nl (map related_bullet (Js.or_nil xs))
         +:+ Js.nl +:+ Js.nl
  else "".

(** One [if (s) output += ...] block over an optional string. *)
Definition text_section (label : string) (s : option string) : string :=
  if Js.truthy s then label +:+ Js.show_str s +:+ Js.nl +:+ Js.nl else "".

(** The [output] of [getHPOTerm] before it is trimmed. *)
Definition term_output (term : OntologyTerm) : string :=
  "**HPO Term: " +:+ id term +:+ "**" +:+ Js.nl
    +:+ "**Name:** " +:+ name term +:+ Js.nl +:+ Js.nl
    +:+ text_section "**Definition:** " (definition term)
    +:+ text_section "**Comment:** " (comment term)
    +:+ joined_section "**Synonyms:** " (synonyms term)
    +:+ joined_section "**Cross-references:** " (xrefs term)
    +:+ joined_section "**Alternative IDs:** " (alternativeIds term)
    +:+ related_section "**Parent Terms:**" (parents term)
    +:+ related_section "**Child Terms:**" (children term)
    +:+ (if is_true_opt (isObsolete term)
         then "**Status:** This term is obsolete"
                +:+ (if Js.truthy (replacement term)
                     then " (replaced by " +:+ Js.show_str (replacement term) +:+ ")"
                     else "")
                +:+ Js.nl +:+ Js.nl
         else "").

Definition getHPOTerm (args_id : string) : Api Completion :=
  if missing args_id then
    mret (Throw "HPO ID parameter is required and must be a string")
  else
    result ← getTerm args_id;
    if Js.truthy (error result) then
      mret (reply_error ("Error retrieving HPO term " +:+ args_id +:+ ": "
                           +:+ Js.show_str (error result)))
    else
      match data result with
      | None => mret (reply ("HPO term " +:+ args_id +:+ " not found"))
      | Some term => mret (reply (JsText.trim (term_output term)))
      end.

(** *** [getHPOAncestors], [getHPOParents], [getHPOChildren],
    [getHPODescendants] *)

Definition getHPOAncestors (args_id : string) (args_max args_offset : option nat)
  : Api Completion :=
  if missing args_id then
    mret (Throw "HPO ID parameter is required and must be a string")
  else
    result ← getAncestors {| hp_id := args_id;
                             hp_max := Some (arg_or args_max 50);
                             hp_offset := Some (arg_or args_offset 0) |};
    if Js.truthy (error result) then
      mret (reply_error ("Error retrieving ancestors for " +:+ args_id +:+ ": "
                           +:+ Js.show_str (error result)))
    else
      let ancestors := Js.or_nil (data result) in
      if List.length ancestors =? 0 then
        mret (reply ("No ancestors found for HPO term " +:+ args_id))
      else
        mret (reply ("Ancestors of " +:+ args_id +:+ ":" +:+ Js.nl +:+ Js.nl
                       +:+ Js.join Js.nl (map term_bullet ancestors))).

Definition getHPOParents (args_id : string) (args_max args_offset : option nat)
  : Api Completion :=
  if missing args_id then
    mret (Throw "HPO ID parameter is required and must be a string")
  else
    result ← getParents {| hp_id := args_id;
                           hp_max := Some (arg_or args_max 20);
                           hp_offset := Some (arg_or args_offset 0) |};
    if Js.truthy (error result) then
      mret (reply_error ("Error retrieving parents for " +:+ args_id +:+ ": "
                           +:+ Js.show_str (error result)))
    else
      let parents := Js.or_nil (data result) in
      if List.length parents =? 0 then
        mret (reply ("No direct parents found for HPO term " +:+ args_id))
      else
        mret (reply ("Direct parents of " +:+ args_id +:+ ":" +:+ Js.nl +:+ Js.nl
                       +:+ Js.join Js.nl (map term_bullet parents))).

Definition getHPOChildren (args_id : string) (args_max args_offset : option nat)
  : Api Completion :=
  if missing args_id then
    mret (Throw "HPO ID parameter is required and must be a string")
  else
    result ← getChildren {| hp_id := args_id;
                            hp_max := Some (arg_or args_max 20);
                            hp_offset := Some (arg_or args_offset 0) |};
    if Js.truthy (error result) then
      mret (reply_error ("Error retrieving children for " +:+ args_id +:+ ": "
                           +:+ Js.show_str (error result)))
    else
      let children := Js.or_nil (data result) in
      if List.length children =? 0 then
        mret (reply ("No direct children found for HPO term " +:+ args_id))
      else
        mret (reply ("Direct children of " +:+ args_id +:+ ":" +:+ Js.nl +:+ Js.nl
                       +:+ Js.join Js.nl (map term_bullet children))).

Definition getHPODescendants (args_id : string) (args_max args_offset : option nat)
  : Api Completion :=
  if missing args_id then
    mret (Throw "HPO ID parameter is required and must be a string")
  else
    let params_max := arg_capped args_max 100 50 in
    result ← getDescendants {| hp_id := args_id;
                               hp_max := Some params_max;
                               hp_offset := Some (arg_or args_offset 0) |};
    if Js.truthy (error result) then
      mret (reply_error ("Error retrieving descendants for " +:+ args_id +:+ ": "
                           +:+ Js.show_str (error result)))
    else
      let descendants := Js.or_nil (data result) in
      if List.length descendants =? 0 then
        mret (reply ("No descendants found for HPO term " +:+ args_id))
      else
        mret (reply ("Descendants of " +:+ args_id +:+ " (showing "
                       +:+ Js.show (List.length descendants) +:+ " terms):"
                       +:+ Js.nl +:+ Js.nl
                       +:+ Js.join Js.nl (map term_bullet descendants)
                       +:+ Js.nl +:+ Js.nl
                       +:+ (if num_or params_max 50 <=? List.length descendants
                            then "Use offset parameter to see more results."
                            else ""))).

(** The listing handler of each relation. *)
Definition listing_handler (rel : Relation)
  : string -> option nat -> option nat -> Api Completion :=
  match rel with
  | Ancestors => getHPOAncestors
  | Parents => getHPOParents
  | Children => getHPOChildren
  | Descendants => getHPODescendants
  end.

(** The window size each listing handler asks for. *)
Definition listing_max (rel : Relation) (args_max : option nat) : nat :=
  match rel with
  | Ancestors => arg_or args_max 50
  | Parents => arg_or args_max 20
  | Children => arg_or args_max 20
  | Descendants => arg_capped args_max 100 50
  end.

(** *** [validateHPOId] *)

Definition validateHPOId (args_id : string) : Api Completion :=
  if missing args_id then
    mret (Throw "ID parameter is required and must be a string")
  else
    let isValid := isValidHPOId args_id in
    let formattedId := formatHPOId args_id in
    if isValid then
      result ← getTerm args_id;
      if Js.truthy (error result) then
        mret (reply ("ID " +:+ JsText.dq +:+ args_id +:+ JsText.dq
                       +:+ " has valid HPO format but term not found: "
                       +:+ Js.show_str (error result)))
      else
        mret (reply ("✅ Valid HPO ID: " +:+ JsText.dq +:+ args_id +:+ JsText.dq
                       +:+ " (formatted as " +:+ JsText.dq +:+ formattedId
                       +:+ JsText.dq +:+ ")" +:+ Js.nl
                       +:+ "Term exists: " +:+ Js.or_str (name <$> data result) "Unknown"))
    else
      mret (reply ("❌ Invalid HPO ID format: " +:+ JsText.dq +:+ args_id +:+ JsText.dq
                     +:+ Js.nl +:+ "Valid format: HP:XXXXXXX (e.g., HP:0000001)")).

(** ** The catalogue endpoints: search and full listing

    [searchTerms] and [getAllTerms] of [src/utils/api-client.ts] with the
    handlers that call them.  Their requests have a log and an oracle of
    their own, used like those of the hierarchy endpoints. *)

(** [SearchTerm] of [src/types/hpo.ts] ([score] is never read). *)
Record SearchTerm := {
  s_id : string;
  s_name : string;
  s_definition : option string;
  s_synonyms : option (list string)
}.

Record SearchResult := {
  res_terms : list SearchTerm;
  res_totalResults : option nat;
  res_page : option nat;
  res_size : option nat
}.

Record SearchParams := {
  sp_q : string;
  sp_max : option nat;
  sp_offset : option nat;
  sp_category : option (list string)
}.

(** A request is its path and query string: the repeated [category]
    parameter is the list of its values, none when the array is absent. *)
Inductive CatalogRequest :=
| Search (query : string) (max offset : option nat) (category : list string)
| AllTerms (max offset : option nat).

(** Payload of the search endpoint, told apart as
    [response.data.terms || response.data || []] and
    [response.data.totalResults] do. *)
Inductive SearchBody :=
| SearchNull
| SearchBlank
| SearchWrapped (terms : list SearchTerm) (totalResults page size : option nat)
| SearchBare (terms : list SearchTerm).

Record CatalogRemote := {
  search_endpoint : nat -> string -> option nat -> option nat -> list string ->
                    AxiosResult SearchBody;
  terms_endpoint : nat -> option nat -> option nat -> AxiosResult ListBody
}.

Definition Catalog (A : Type) : Type :=
  CatalogRemote -> list CatalogRequest -> A * list CatalogRequest.

#[export] Instance Catalog_ret : MRet Catalog := fun A x _ log => (x, log).

#[export] Instance Catalog_bind : MBind Catalog := fun A B f m r log =>
  let (a, log') := m r log in f a r log'.

Definition run_catalog {A} (m : Catalog A) (r : CatalogRemote)
  : A * list CatalogRequest := m r [].

Definition client_get_search (query : string) (max offset : option nat)
    (category : list string) : Catalog (AxiosResult SearchBody) :=
  fun r log => (search_endpoint r (List.length log) query max offset category,
                log ++ [Search query max offset category]).

Definition client_get_terms (max offset : option nat)
  : Catalog (AxiosResult ListBody) :=
  fun r log => (terms_endpoint r (List.length log) max offset,
                log ++ [AllTerms max offset]).

Definition search_response (res : AxiosResult SearchBody) : ApiResponse SearchResult :=
  match res with
  | Fulfilled st SearchNull => failure null_terms_message
  | Fulfilled st SearchBlank =>
      {| data := Some {| res_terms := []; res_totalResults := None;
                         res_page := None; res_size := None |};
         error := None; status := st |}
  | Fulfilled st (SearchWrapped ts total page size) =>
      {| data := Some {| res_terms := ts; res_totalResults := total;
                         res_page := page; res_size := size |};
         error := None; status := st |}
  | Fulfilled st (SearchBare ts) =>
      {| data := Some {| res_terms := ts; res_totalResults := None;
                         res_page := None; res_size := None |};
         error := None; status := st |}
  | Rejected e => failure (interceptor_message e)
  end.

Definition searchTerms (params : SearchParams) : Catalog (ApiResponse SearchResult) :=
  res ← client_get_search (sp_q params)
          (query_param (sp_max params)) (query_param (sp_offset params))
          (Js.or_nil (sp_category params));
  mret (search_response res).

Definition getAllTerms (max offset : option nat)
  : Catalog (ApiResponse (list SimpleOntologyTerm)) :=
  res ← client_get_terms (query_param max) (query_param offset);
  mret (list_response res).

(** *** [searchHPOTerms] *)

Definition search_item (term : SearchTerm) : string :=
  let synonyms :=
    if 0 <? List.length (Js.or_nil (s_synonyms term))
    then Js.nl +:+ "  Synonyms: " +:+ Js.join ", " (Js.or_nil (s_synonyms term))
    else "" in
  let definition :=
    if Js.truthy (s_definition term)
    then Js.nl +:+ "  Definition: " +:+ Js.show_str (s_definition term)
    else "" in
  "• " +:+ s_id term +:+ ": " +:+ s_name term +:+ definition +:+ synonyms.

Definition search_pagination (max offset shown totalResults : nat) : string :=
  if (0 <? offset) || (num_or max 20 <=? shown) then
    Js.nl +:+ Js.nl +:+ "Showing results " +:+ Js.show (offset + 1) +:+ "-"
      +:+ Js.show (offset + shown) +:+ " of " +:+ Js.show totalResults
      +:+ " total results."
  else if shown <? totalResults then
    Js.nl +:+ Js.nl +:+ "Showing first " +:+ Js.show shown +:+ " of "
      +:+ Js.show totalResults +:+ " total results."
  else "".

Definition searchHPOTerms (args_query : string) (args_max args_offset : option nat)
    (args_category : option (list string)) : Catalog Completion :=
  if missing args_query then
    mret (Throw "Query parameter is required and must be a string")
  else
    let max := arg_or args_max 20 in
    let offset := arg_or args_offset 0 in
    result ← searchTerms {| sp_q := args_query; sp_max := Some max;
                            sp_offset := Some offset;
                            sp_category := args_category |};
    if Js.truthy (error result) then
      mret (reply_error ("Error searching HPO terms: " +:+ Js.show_str (error result)))
    else
      let terms := default [] (res_terms <$> data result) in
      let totalResults :=
        num_or (default 0 (data result ≫= res_totalResults)) (List.length terms) in
      if List.length terms =? 0 then
        mret (reply ("No HPO terms found for query: " +:+ JsText.dq +:+ args_query
                       +:+ JsText.dq))
      else
        mret (reply ("Found " +:+ Js.show totalResults +:+ " HPO terms matching "
                       +:+ JsText.dq +:+ args_query +:+ JsText.dq +:+ ":"
                       +:+ Js.nl +:+ Js.nl
                       +:+ Js.join (Js.nl +:+ Js.nl) (map search_item terms)
                       +:+ search_pagination max offset (List.length terms)
                             totalResults)).

(** *** [getAllHPOTerms] *)

Definition getAllHPOTerms (args_max args_offset : option nat) : Catalog Completion :=
  let max := arg_capped args_max 100 20 in
  let offset := arg_or args_offset 0 in
  result ← getAllTerms (Some max) (Some offset);
  if Js.truthy (error result) then
    mret (reply_error ("Error retrieving HPO terms: " +:+ Js.show_str (error result)))
  else
    let terms := Js.or_nil (data result) in
    if List.length terms =? 0 then
      mret (reply ("No HPO terms found at offset " +:+ Js.show offset))
    else
      mret (reply ("HPO Terms (showing " +:+ Js.show (List.length terms)
                     +:+ " terms starting from position " +:+ Js.show (offset + 1)
                     +:+ "):" +:+ Js.nl +:+ Js.nl
                     +:+ Js.join Js.nl (map term_bullet terms)
                     +:+ Js.nl +:+ Js.nl
                     +:+ "To see more terms, use a higher offset value.")).

(** ** [src/index.ts]: the tool dispatcher *)

(** The [arguments] object of a tool call.  A property is [None] when it is
    absent or not of the type its handler tests for. *)
Record ToolArgs := {
  arg_query : option string;
  arg_id : option string;
  arg_term1 : option string;
  arg_term2 : option string;
  arg_ids : option (list string);
  arg_max : option nat;
  arg_offset : option nat;
  arg_category : option (list string)
}.

Inductive ErrorCode := MethodNotFound | InvalidParams.

(** What a tool call ends in: a result, or an [McpError] thrown to the
    server. *)
Inductive ToolOutcome :=
| ToolReturn (res : ToolResult)
| McpError (code : ErrorCode) (message : string).

Record Source := {
  hierarchy : Remote;
  catalog : CatalogRemote
}.

Inductive Fetch :=
| FromHierarchy (q : Request)
| FromCatalog (q : CatalogRequest).

(** A string argument as the guards see it. *)
Definition str_arg (o : option string) : string := default "" o.

Definition on_hierarchy (m : Api Completion) (s : Source) : Completion * list Fetch :=
  let (c, log) := run m (hierarchy s) in (c, map FromHierarchy log).

Definition on_catalog (m : Catalog Completion) (s : Source) : Completion * list Fetch :=
  let (c, log) := run_catalog m (catalog s) in (c, map FromCatalog log).

(** A handler called without an arguments object fails on the first
    property it reads. *)
Definition no_arguments (p : string) (s : Source) : Completion * list Fetch :=
  (Throw (JsText.undefined_read p), []).

(** The [switch]: the handler call of each tool name, [None] for the
    [default] branch.  [batchGetHPOTerms] is entered past its guard on
    [args.ids], which is given here. *)
Definition tool_call (name : string) (args : option ToolArgs)
  : option (Source -> Completion * list Fetch) :=
  let with_args (p : string) (h : ToolArgs -> Source -> Completion * list Fetch) :=
    Some (match args with
          | None => no_arguments p
          | Some a => h a
          end) in
  if String.eqb name "search_hpo_terms" then
    with_args "query" (fun a => on_catalog
      (searchHPOTerms (str_arg (arg_query a)) (arg_max a) (arg_offset a) (arg_category a)))
  else if String.eqb name "get_hpo_term" then
    with_args "id" (fun a => on_hierarchy (getHPOTerm (str_arg (arg_id a))))
  else if String.eqb name "get_all_hpo_terms" then
    with_args "max" (fun a => on_catalog (getAllHPOTerms (arg_max a) (arg_offset a)))
  else if String.eqb name "get_hpo_ancestors" then
    with_args "id" (fun a => on_hierarchy
      (getHPOAncestors (str_arg (arg_id a)) (arg_max a) (arg_offset a)))
  else if String.eqb name "get_hpo_parents" then
    with_args "id" (fun a => on_hierarchy
      (getHPOParents (str_arg (arg_id a)) (arg_max a) (arg_offset a)))
  else if String.eqb name "get_hpo_children" then
    with_args "id" (fun a => on_hierarchy
      (getHPOChildren (str_arg (arg_id a)) (arg_max a) (arg_offset a)))
  else if String.eqb name "get_hpo_descendants" then
    with_args "id" (fun a => on_hierarchy
      (getHPODescendants (str_arg (arg_id a)) (arg_max a) (arg_offset a)))
  else if String.eqb name "validate_hpo_id" then
    with_args "id" (fun a => on_hierarchy (validateHPOId (str_arg (arg_id a))))
  else if String.eqb name "get_hpo_term_path" then
    with_args "id" (fun a => on_hierarchy (getHPOTermPath (str_arg (arg_id a))))
  else if String.eqb name "compare_hpo_terms" then
    with_args "term1" (fun a => on_hierarchy
      (compareHPOTerms (str_arg (arg_term1 a)) (str_arg (arg_term2 a))))
  else if String.eqb name "get_hpo_term_stats" then
    with_args "id" (fun a => on_hierarchy (getHPOTermStats (str_arg (arg_id a))))
  else if String.eqb name "batch_get_hpo_terms" then
    with_args "ids" (fun a =>
      match arg_ids a with
      | None => fun _ =>
          (Throw "IDs parameter is required and must be an array of strings", [])
      | Some ids => on_hierarchy (batchGetHPOTerms ids)
      end)
  else None.

(** The [catch] of the dispatcher on a plain [Error]. *)
Definition settle (c : Completion) : ToolOutcome :=
  match c with
  | Return res => ToolReturn res
  | Throw errorMessage =>
      if Js.includes errorMessage "required"
      then McpError InvalidParams errorMessage
      else ToolReturn {| text := "Error: " +:+ errorMessage; isError := true |}
  end.

(** The [CallToolRequestSchema] handler. *)
Definition callTool (name : string) (args : option ToolArgs) (s : Source)
  : ToolOutcome * list Fetch :=
  match tool_call name args with
  | Some call => let (c, log) := call s in (settle c, log)
  | None => (McpError MethodNotFound ("Unknown tool: " +:+ name), [])
  end.

(** The tool names of the [switch]. *)
Definition tool_names : list string :=
  ["search_hpo_terms"; "get_hpo_term"; "get_all_hpo_terms"; "get_hpo_ancestors";
   "get_hpo_parents"; "get_hpo_children"; "get_hpo_descendants"; "validate_hpo_id";
   "get_hpo_term_path"; "compare_hpo_terms"; "get_hpo_term_stats";
   "batch_get_hpo_terms"].

(** *** A catalogue to run the handlers on *)

Definition sample_hits : list SearchTerm :=
  [ {| s_id := "HP:0001250"; s_name := "Seizure";
       s_definition := Some "An intermittent abnormality of nervous system physiology.";
       s_synonyms := Some ["Epileptic seizure"; "Seizures"] |};
    {| s_id := "HP:0002069"; s_name := "Bilateral tonic-clonic seizure";
       s_definition := None; s_synonyms := None |} ].

Definition sample_catalog : CatalogRemote :=
  {| search_endpoint := fun _ query mx off _ =>
       if String.eqb query "seizure"
       then Fulfilled 200 (SearchWrapped (window 20 mx off sample_hits) (Some 57) None None)
       else Fulfilled 200 (SearchWrapped [] None None None);
     terms_endpoint := fun _ mx off =>
       Fulfilled 200 (ListBare (window 20 mx off sample_refs)) |}.

Definition sample_world : Source :=
  {| hierarchy := sample_source; catalog := sample_catalog |}.

Definition no_args : ToolArgs :=
  {| arg_query := None; arg_id := None; arg_term1 := None; arg_term2 := None;
     arg_ids := None; arg_max := None; arg_offset := None; arg_category := None |}.


(** * Properties *)

(** ** The identifier formatter *)

Section Formatter.

Lemma startsWith_HP s : Js.startsWith ("HP:" +:+ s) "HP:" = true.
Proof. destruct s; reflexivity. Qed.

Lemma digit_not_H c s : Js.is_digit c = true -> Js.startsWith (String c s) "HP:" = false.
Proof.
  intros Hd. unfold Js.startsWith. cbn [String.prefix].
  destruct (ascii_dec "H" c) as [<- | _]; [discriminate Hd | reflexivity].
Qed.

Lemma digits_not_prefixed s : Js.test_digits s = true -> Js.startsWith s "HP:" = false.
Proof.
  destruct s as [| c s]; [discriminate |]. cbn [Js.test_digits Js.all_digit].
  intros [Hc _]%andb_prop. exact (digit_not_H c s Hc).
Qed.

Lemma seven_digits_are_digits s : Js.test_7digits s = true -> Js.test_digits s = true.
Proof.
  unfold Js.test_7digits. intros [Hl Hd]%andb_prop.
  destruct s; [discriminate Hl | exact Hd].
Qed.

Lemma padStart_full s n c : n <= String.length s -> Js.padStart s n c = s.
Proof.
  intros Hn. unfold Js.padStart.
  replace (n - String.length s) with 0 by lia. reflexivity.
Qed.

Lemma canonical_prefixed x : Js.test_canonical x = true -> Js.startsWith x "HP:" = true.
Proof.
  destruct x as [| a x]; [discriminate |].
  destruct a as [[] [] [] [] [] [] [] []]; try discriminate.
  destruct x as [| b x]; [discriminate |].
  destruct b as [[] [] [] [] [] [] [] []]; try discriminate.
  destruct x as [| c x]; [discriminate |].
  destruct c as [[] [] [] [] [] [] [] []]; try discriminate.
  intros _. apply startsWith_HP.
Qed.

Lemma formatHPOId_prefixed x : Js.startsWith x "HP:" = true -> formatHPOId x = x.
Proof. intros H. unfold formatHPOId. rewrite H. reflexivity. Qed.

Lemma formatHPOId_idem x : formatHPOId (formatHPOId x) = formatHPOId x.
Proof.
  unfold formatHPOId at 2 3.
  destruct (Js.startsWith x "HP:") eqn:Hp; [exact (formatHPOId_prefixed x Hp) |].
  destruct (Js.test_digits x) eqn:Hd.
  - apply formatHPOId_prefixed, startsWith_HP.
  - unfold formatHPOId. rewrite Hp, Hd. reflexivity.
Qed.

End Formatter.

(** C9.  The identifier normalizer [formatHPOId] is a total function such
    that: a 7-digit numeric string [s] is sent to ["HP:" + s]; an input that
    already matches [HP:\d{7}] is returned unchanged; normalizing twice is
    the same as normalizing once (on canonical ids and on every other input);
    and a malformed input, one that is not made of digits only, is passed
    through unchanged. *)
Theorem formatHPOId_normalizes :
  (forall s, Js.test_7digits s = true -> formatHPOId s = "HP:" +:+ s) /\
  (forall x, Js.test_canonical x = true -> formatHPOId x = x) /\
  (forall x, formatHPOId (formatHPOId x) = formatHPOId x) /\
  (forall x, Js.test_digits x = false -> formatHPOId x = x).
Proof.
  repeat split.
  - intros s H7. unfold formatHPOId.
    rewrite (digits_not_prefixed s (seven_digits_are_digits s H7)).
    rewrite (seven_digits_are_digits s H7).
    apply andb_prop in H7 as [Hl _]. apply Nat.eqb_eq in Hl.
    rewrite padStart_full by lia. reflexivity.
  - intros x Hc. apply formatHPOId_prefixed, canonical_prefixed, Hc.
  - apply formatHPOId_idem.
  - intros x Hd. unfold formatHPOId. rewrite Hd.
    destruct (Js.startsWith x "HP:"); reflexivity.
Qed.

Lemma formatHPOId_normalizes_witness :
  formatHPOId "0001250" = "HP:0001250" /\
  formatHPOId "HP:0001250" = "HP:0001250" /\
  formatHPOId "HP:seizure" = "HP:seizure" /\
  formatHPOId "seizure" = "seizure".
Proof.
  destruct formatHPOId_normalizes as (Hseven & Hcanon & _ & Hother).
  split; [apply (Hseven "0001250"); reflexivity |].
  split; [apply (Hcanon "HP:0001250"); reflexivity |].
  split; [apply (Hother "HP:seizure"); reflexivity |].
  apply (Hother "seizure"); reflexivity.
Defined.

(** ** Running the client *)

Lemma bind_unfold {A B} (m : Api A) (f : A -> Api B) r log :
  (m ≫= f) r log = f (m r log).1 r (m r log).2.
Proof. unfold mbind, Api_bind. destruct (m r log); reflexivity. Qed.

Lemma getTerm_unfold id r log :
  getTerm id r log =
  (fetched_term r (List.length log) id, log ++ [GetTerm (formatHPOId id)]).
Proof. reflexivity. Qed.

Lemma getRelated_unfold rel id mx off r log :
  getRelated rel {| hp_id := id; hp_max := Some mx; hp_offset := Some off |} r log =
  (fetched_related r (List.length log) rel id mx off,
   log ++ [GetRelated rel (formatHPOId id)
             (query_param (Some mx)) (query_param (Some off))]).
Proof. reflexivity. Qed.

Ltac api_step :=
  rewrite bind_unfold;
  unfold getAncestors, getDescendants, getParents, getChildren;
  rewrite ?getTerm_unfold, ?getRelated_unfold;
  cbn [fst snd List.length app].


Lemma term_response_error res :
  Js.truthy (error (term_response res)) = true -> data (term_response res) = None.
Proof. destruct res; [discriminate | reflexivity]. Qed.

Lemma list_response_error res :
  Js.truthy (error (list_response res)) = true -> data (list_response res) = None.
Proof. destruct res as [st []|]; solve [discriminate | reflexivity]. Qed.

Lemma degrade_or_nil res : degrade (list_response res) = Js.or_nil (data (list_response res)).
Proof.
  unfold degrade. destruct (Js.truthy _) eqn:E; [| reflexivity].
  rewrite (list_response_error res E). reflexivity.
Qed.

(** ** [getHPOTermPath], case by case *)

Lemma getHPOTermPath_run r args_id :
  missing args_id = false ->
  run (getHPOTermPath args_id) r =
  let T := fetched_term r 0 args_id in
  let A := fetched_related r 1 Ancestors args_id 200 0 in
  let q1 := GetTerm (formatHPOId args_id) in
  let q2 := GetRelated Ancestors (formatHPOId args_id) (Some 200) None in
  if Js.truthy (error T) then
    (reply_error ("Error retrieving term " +:+ args_id +:+ ": "
                    +:+ Js.show_str (error T)), [q1])
  else if Js.truthy (error A) then
    (reply_error ("Error retrieving ancestors for " +:+ args_id +:+ ": "
                    +:+ Js.show_str (error A)), [q1; q2])
  else
    (match data T with
     | None => reply ("Term " +:+ args_id +:+ " not found")
     | Some term => reply (path_text args_id (pathTerms (Js.or_nil (data A)) term))
     end, [q1; q2]).
Proof.
  intros Hm. unfold run, getHPOTermPath. rewrite Hm. api_step.
  destruct (Js.truthy (error (fetched_term r 0 args_id))) eqn:ET; [reflexivity |].
  api_step.
  destruct (Js.truthy (error (fetched_related r 1 Ancestors args_id 200 0))) eqn:EA;
    [reflexivity |].
  destruct (data (fetched_term r 0 args_id)); reflexivity.
Qed.

Lemma pathTerms_depth anc term : List.length (pathTerms anc term) - 1 = List.length anc.
Proof. unfold pathTerms. rewrite length_app, length_rev. cbn. lia. Qed.

(** C2.  For a term id [T] whose term fetch succeeds with record [t] and
    whose ancestor fetch succeeds with the nearest-first closure [anc], the
    Path Reconstructor returns a success whose path is [anc] reversed
    (root first) followed by [t] itself, and whose reported depth is the path
    length minus one, that is the number of ancestors.  A closure
    [[P3; P2; P1]] gives the path [[P1; P2; P3; T]] and depth 3; an empty
    closure gives the one-element path [[T]] and depth 0, still as a
    success. *)
Theorem path_reconstruction r T t anc :
  missing T = false ->
  fetch_ok (fetched_term r 0 T) t ->
  fetch_ok (fetched_related r 1 Ancestors T 200 0) anc ->
  let self := {| st_id := id t; st_name := name t |} in
  let path := rev anc ++ [self] in
  run (getHPOTermPath T) r =
    (Return {| text := "Hierarchical path to " +:+ T +:+ ":" +:+ Js.nl +:+ Js.nl
                 +:+ formattedPath path +:+ Js.nl +:+ Js.nl
                 +:+ "Path depth: " +:+ Js.show (List.length path - 1) +:+ " levels";
               isError := false |},
     [GetTerm (formatHPOId T);
      GetRelated Ancestors (formatHPOId T) (Some 200) None])
  /\ List.length path - 1 = List.length anc
  /\ (forall P1 P2 P3, anc = [P3; P2; P1] ->
        path = [P1; P2; P3; self] /\ List.length path - 1 = 3)
  /\ (anc = [] -> path = [self] /\ List.length path - 1 = 0).
Proof.
  intros Hm [HTe HTd] [HAe HAd] self path.
  split; [| split; [| split]].
  - rewrite (getHPOTermPath_run r T Hm). cbn zeta.
    rewrite HTe, HAe, HTd, HAd. reflexivity.
  - apply (pathTerms_depth anc t).
  - intros P1 P2 P3 ->. split; reflexivity.
  - intros ->. split; reflexivity.
Qed.

Lemma path_reconstruction_witness :
  run (getHPOTermPath "HP:0001250") sample_source =
    (reply (path_text "HP:0001250"
              [all_ref; abnormality_ref; nervous_ref; physiology_ref; seizure_ref]),
     [GetTerm "HP:0001250"; GetRelated Ancestors "HP:0001250" (Some 200) None])
  /\ List.length [all_ref; abnormality_ref; nervous_ref; physiology_ref; seizure_ref] - 1
     = 4.
Proof.
  assert (Hm : missing "HP:0001250" = false) by reflexivity.
  assert (HT : fetch_ok (fetched_term sample_source 0 "HP:0001250")
                 (plain_term "HP:0001250" "Seizure")) by (split; reflexivity).
  assert (HA : fetch_ok (fetched_related sample_source 1 Ancestors "HP:0001250" 200 0)
                 [physiology_ref; nervous_ref; abnormality_ref; all_ref])
    by (split; reflexivity).
  destruct (path_reconstruction sample_source "HP:0001250" _ _ Hm HT HA)
    as (Hrun & Hdepth & _ & _).
  split; [exact Hrun | exact Hdepth].
Defined.

(** ** [compareHPOTerms], case by case *)

Lemma compareHPOTerms_run r term1 term2 :
  missing term1 = false -> missing term2 = false ->
  run (compareHPOTerms term1 term2) r =
  let T1 := fetched_term r 0 term1 in
  let T2 := fetched_term r 1 term2 in
  let A1 := fetched_related r 2 Ancestors term1 200 0 in
  let A2 := fetched_related r 3 Ancestors term2 200 0 in
  let q1 := GetTerm (formatHPOId term1) in
  let q2 := GetTerm (formatHPOId term2) in
  let q3 := GetRelated Ancestors (formatHPOId term1) (Some 200) None in
  let q4 := GetRelated Ancestors (formatHPOId term2) (Some 200) None in
  if Js.truthy (error T1) || Js.truthy (error T2) then
    (reply_error ("Error retrieving terms: "
                    +:+ Js.show_str (Js.or_else (error T1) (error T2))), [q1; q2])
  else
    match data T1, data T2 with
    | Some data1, Some data2 =>
        (reply (compare_text term1 term2 (name data1) (name data2)
                  (relationship term1 term2 (Js.or_nil (data A1)) (Js.or_nil (data A2)))
                  (commonAncestors (Js.or_nil (data A1)) (Js.or_nil (data A2)))),
         [q1; q2; q3; q4])
    | _, _ =>
        (reply ("One or both terms not found: " +:+ term1 +:+ ", " +:+ term2), [q1; q2])
    end.
Proof.
  intros Hm1 Hm2. unfold run, compareHPOTerms. rewrite Hm1, Hm2.
  cbn [orb]. api_step. api_step.
  destruct (Js.truthy (error (fetched_term r 0 term1))
            || Js.truthy (error (fetched_term r 1 term2))) eqn:E; [reflexivity |].
  destruct (data (fetched_term r 0 term1)) as [data1 |]; [| reflexivity].
  destruct (data (fetched_term r 1 term2)) as [data2 |]; [| reflexivity].
  api_step. api_step. reflexivity.
Qed.

Section Classification.

Implicit Types (ancA ancB : list SimpleOntologyTerm) (x y : string).

Lemma some_id_spec x ancA :
  existsb (fun a => String.eqb (st_id a) x) ancA = bool_decide (x ∈ map st_id ancA).
Proof.
  induction ancA as [| a ancA IH]; [reflexivity |].
  cbn [existsb map]. rewrite IH.
  destruct (String.eqb_spec (st_id a) x) as [-> | Hne].
  - symmetry. apply bool_decide_eq_true. constructor.
  - cbn [orb]. apply bool_decide_ext. rewrite elem_of_cons.
    split; [right; assumption | intros [Heq | Hin]; [congruence | exact Hin]].
Qed.

Lemma commonAncestors_spec ancA ancB : commonAncestors ancA ancB = common_ancestor_set ancA ancB.
Proof.
  unfold commonAncestors, common_ancestor_set, ancestors1Ids.
  induction ancB as [| b ancB IH]; [reflexivity |].
  cbn [List.filter]. rewrite filter_cons, IH.
  destruct (decide (st_id b ∈ map st_id ancA)) as [Hin | Hout].
  - rewrite bool_decide_eq_true_2 by (apply elem_of_list_to_set, Hin). reflexivity.
  - rewrite bool_decide_eq_false_2; [reflexivity |].
    intros Hin. apply Hout. apply elem_of_list_to_set in Hin. exact Hin.
Qed.

Lemma relationship_spec x y ancA ancB :
  relationship x y ancA ancB = verdict_phrase x y (classify x y ancA ancB).
Proof.
  unfold relationship, classify. rewrite !some_id_spec, commonAncestors_spec.
  destruct (decide (y ∈ map st_id ancA)) as [H1 | H1].
  { rewrite bool_decide_eq_true_2 by exact H1. reflexivity. }
  rewrite bool_decide_eq_false_2 by exact H1.
  destruct (decide (x ∈ map st_id ancB)) as [H2 | H2].
  { rewrite bool_decide_eq_true_2 by exact H2. reflexivity. }
  rewrite bool_decide_eq_false_2 by exact H2.
  destruct (common_ancestor_set ancA ancB); reflexivity.
Qed.

Lemma common_nil_l ancB : common_ancestor_set [] ancB = [].
Proof.
  unfold common_ancestor_set. induction ancB as [| b ancB IH]; [reflexivity |].
  rewrite filter_cons. destruct (decide _) as [Hin |]; [| exact IH].
  cbn in Hin. inversion Hin.
Qed.

Lemma common_nil_r ancA : common_ancestor_set ancA [] = [].
Proof. reflexivity. Qed.

End Classification.

(** C1.  For term ids [A] and [B] whose term fetches and ancestor fetches
    succeed, with closures [ancA] and [ancB], the Relationship Comparator
    reports the verdict chosen by first-match-wins precedence: A is a
    descendant of B if B's id occurs in [ancA]; else B is a descendant of A
    if A's id occurs in [ancB]; else related via common ancestors if the
    common-ancestor set is not empty; else unrelated.  With
    [ancA = [B; X; Y]] and [ancB = [X; Y]] the verdict is
    [FirstIsDescendantOfSecond], although the common ancestors are not
    empty. *)
Theorem compare_precedence r A B tA tB ancA ancB :
  missing A = false -> missing B = false ->
  fetch_ok (fetched_term r 0 A) tA ->
  fetch_ok (fetched_term r 1 B) tB ->
  fetch_ok (fetched_related r 2 Ancestors A 200 0) ancA ->
  fetch_ok (fetched_related r 3 Ancestors B 200 0) ancB ->
  run (compareHPOTerms A B) r =
    (reply (compare_text A B (name tA) (name tB)
              (verdict_phrase A B (classify A B ancA ancB))
              (common_ancestor_set ancA ancB)),
     [GetTerm (formatHPOId A); GetTerm (formatHPOId B);
      GetRelated Ancestors (formatHPOId A) (Some 200) None;
      GetRelated Ancestors (formatHPOId B) (Some 200) None])
  /\ (forall b X Y, st_id b = B -> ancA = [b; X; Y] -> ancB = [X; Y] ->
        classify A B ancA ancB = FirstIsDescendantOfSecond
        /\ common_ancestor_set ancA ancB = [X; Y]).
Proof.
  intros HmA HmB [HAe HAd] [HBe HBd] [H1e H1d] [H2e H2d]. split.
  - rewrite (compareHPOTerms_run r A B HmA HmB). cbn zeta.
    rewrite HAe, HBe, HAd, HBd, H1d, H2d. cbn [orb Js.or_nil].
    rewrite relationship_spec, commonAncestors_spec. reflexivity.
  - intros b X Y Hb -> ->. split.
    + unfold classify. rewrite decide_True; [reflexivity |].
      cbn [map]. rewrite Hb. constructor.
    + unfold common_ancestor_set. cbn [map].
      rewrite filter_cons, decide_True by (do 1 constructor; constructor).
      rewrite filter_cons, decide_True by (do 2 constructor; constructor).
      reflexivity.
Qed.

Lemma compare_precedence_witness :
  run (compareHPOTerms "HP:0001250" "HP:0000707") sample_source =
    (reply (compare_text "HP:0001250" "HP:0000707"
              "Seizure" "Abnormality of the nervous system"
              "HP:0001250 is a descendant of HP:0000707"
              [abnormality_ref; all_ref]),
     [GetTerm "HP:0001250"; GetTerm "HP:0000707";
      GetRelated Ancestors "HP:0001250" (Some 200) None;
      GetRelated Ancestors "HP:0000707" (Some 200) None]).
Proof.
  assert (HmA : missing "HP:0001250" = false) by reflexivity.
  assert (HmB : missing "HP:0000707" = false) by reflexivity.
  assert (HA : fetch_ok (fetched_term sample_source 0 "HP:0001250")
                 (plain_term "HP:0001250" "Seizure")) by (split; reflexivity).
  assert (HB : fetch_ok (fetched_term sample_source 1 "HP:0000707")
                 (plain_term "HP:0000707" "Abnormality of the nervous system"))
    by (split; reflexivity).
  assert (H1 : fetch_ok (fetched_related sample_source 2 Ancestors "HP:0001250" 200 0)
                 [physiology_ref; nervous_ref; abnormality_ref; all_ref])
    by (split; reflexivity).
  assert (H2 : fetch_ok (fetched_related sample_source 3 Ancestors "HP:0000707" 200 0)
                 [abnormality_ref; all_ref]) by (split; reflexivity).
  destruct (compare_precedence sample_source _ _ _ _ _ _ HmA HmB HA HB H1 H2)
    as [Hrun _].
  rewrite Hrun. vm_compute. reflexivity.
Defined.

(** C7, as the code has it.  In the Relationship Comparator, when the first
    term fetch fails the result is an error that carries the first fetch's
    message and nothing of the second's, whether or not the second fetch
    failed too; the second fetch's message is reported only when the first
    fetch did not fail.  When neither fetch failed but one of them found no
    record, the result is the not-found notice.  In all three cases only the
    two term requests are issued and no verdict is produced. *)
Theorem compare_term_failure r A B :
  missing A = false -> missing B = false ->
  let T1 := fetched_term r 0 A in
  let T2 := fetched_term r 1 B in
  let issued := [GetTerm (formatHPOId A); GetTerm (formatHPOId B)] in
  (fetch_failed T1 ->
     run (compareHPOTerms A B) r =
       (reply_error ("Error retrieving terms: " +:+ Js.show_str (error T1)), issued))
  /\ (Js.truthy (error T1) = false -> fetch_failed T2 ->
        run (compareHPOTerms A B) r =
          (reply_error ("Error retrieving terms: " +:+ Js.show_str (error T2)), issued))
  /\ (Js.truthy (error T1) = false -> Js.truthy (error T2) = false ->
        fetch_not_found T1 \/ fetch_not_found T2 ->
        run (compareHPOTerms A B) r =
          (reply ("One or both terms not found: " +:+ A +:+ ", " +:+ B), issued)).
Proof.
  intros HmA HmB T1 T2 issued.
  rewrite (compareHPOTerms_run r A B HmA HmB). cbn zeta.
  fold T1 T2. unfold fetch_failed, Js.or_else.
  split; [| split].
  - intros ->. reflexivity.
  - intros -> ->. reflexivity.
  - intros -> -> Hnone. cbn [orb].
    destruct Hnone as [[_ ->] | [_ ->]]; [reflexivity |].
    destruct (data T1); reflexivity.
Qed.

Lemma compare_term_failure_witness :
  run (compareHPOTerms "HP:0001250" "HP:0000707")
      (answer_term (answer_term sample_source 0 (Rejected timeout_error))
                   1 (Rejected server_error)) =
    (reply_error
       "Error retrieving terms: HPO API is not responding. Please check your internet connection.",
     [GetTerm "HP:0001250"; GetTerm "HP:0000707"]).
Proof.
  assert (HmA : missing "HP:0001250" = false) by reflexivity.
  assert (HmB : missing "HP:0000707" = false) by reflexivity.
  destruct (compare_term_failure
              (answer_term (answer_term sample_source 0 (Rejected timeout_error))
                           1 (Rejected server_error))
              "HP:0001250" "HP:0000707" HmA HmB) as [Hfirst _].
  apply Hfirst. reflexivity.
Defined.

(** C7, as claimed, fails: with both term fetches failing, the first on a
    time-out and the second on a 503, the reported failure is the first
    fetch's message and does not name the second error. *)
Lemma compare_both_errors_counterexample :
  let r := answer_term (answer_term sample_source 0 (Rejected timeout_error))
                       1 (Rejected server_error) in
  let reported :=
    "Error retrieving terms: HPO API is not responding. Please check your internet connection." in
  error (fetched_term r 0 "HP:0001250")
    = Some "HPO API is not responding. Please check your internet connection."
  /\ error (fetched_term r 1 "HP:0000707")
     = Some "HPO API Error (503): Service Unavailable"
  /\ (run (compareHPOTerms "HP:0001250" "HP:0000707") r).1 = reply_error reported
  /\ Js.includes reported "HPO API Error (503): Service Unavailable" = false
  /\ Js.includes reported "503" = false.
Proof. repeat split; vm_compute; reflexivity. Qed.

(** C10.  In the Relationship Comparator, when both term fetches succeed, a
    failed ancestor-closure fetch is treated as an empty ancestor list: the
    comparison still returns a verdict as a success, computed from the
    degraded lists, and the result is the very one obtained had the failed
    fetch returned an empty closure, so nothing in it marks the failure.  A
    failure of either closure fetch empties the common-ancestor set, and
    when both fail the verdict is "unrelated". *)
Theorem compare_closure_failure_silent r A B tA tB :
  missing A = false -> missing B = false ->
  fetch_ok (fetched_term r 0 A) tA ->
  fetch_ok (fetched_term r 1 B) tB ->
  let A1 := fetched_related r 2 Ancestors A 200 0 in
  let A2 := fetched_related r 3 Ancestors B 200 0 in
  run (compareHPOTerms A B) r =
    (reply (compare_text A B (name tA) (name tB)
              (verdict_phrase A B (classify A B (degrade A1) (degrade A2)))
              (common_ancestor_set (degrade A1) (degrade A2))),
     [GetTerm (formatHPOId A); GetTerm (formatHPOId B);
      GetRelated Ancestors (formatHPOId A) (Some 200) None;
      GetRelated Ancestors (formatHPOId B) (Some 200) None])
  /\ (fetch_failed A1 -> degrade A1 = [])
  /\ (fetch_failed A2 -> degrade A2 = [])
  /\ (fetch_failed A1 \/ fetch_failed A2 ->
        common_ancestor_set (degrade A1) (degrade A2) = [])
  /\ (fetch_failed A1 -> fetch_failed A2 ->
        classify A B (degrade A1) (degrade A2) = Unrelated)
  /\ (forall n e st,
        run (compareHPOTerms A B) (answer_list r n (Rejected e)) =
        run (compareHPOTerms A B) (answer_list r n (Fulfilled st (ListBare [])))).
Proof.
  intros HmA HmB [HAe HAd] [HBe HBd] A1 A2.
  assert (D1 : fetch_failed A1 -> degrade A1 = []).
  { unfold fetch_failed, degrade. intros ->. reflexivity. }
  assert (D2 : fetch_failed A2 -> degrade A2 = []).
  { unfold fetch_failed, degrade. intros ->. reflexivity. }
  split; [| split; [exact D1 | split; [exact D2 | split; [| split]]]].
  - rewrite (compareHPOTerms_run r A B HmA HmB). cbn zeta.
    rewrite HAe, HBe, HAd, HBd. cbn [orb]. fold A1 A2.
    rewrite relationship_spec, commonAncestors_spec.
    unfold A1, A2, fetched_related. rewrite !degrade_or_nil. reflexivity.
  - intros [F | F].
    + rewrite (D1 F). apply common_nil_l.
    + rewrite (D2 F). apply common_nil_r.
  - intros F1 F2. rewrite (D1 F1), (D2 F2). reflexivity.
  - intros n e st. rewrite !(compareHPOTerms_run _ A B HmA HmB). cbn zeta.
    unfold fetched_term, fetched_related, answer_list.
    cbn [term_endpoint list_endpoint].
    destruct (2 =? n); destruct (3 =? n); reflexivity.
Qed.

Lemma compare_closure_failure_silent_witness :
  let r := answer_list (answer_list sample_source 2 (Rejected timeout_error))
                       3 (Rejected server_error) in
  run (compareHPOTerms "HP:0001250" "HP:0000707") r =
    (reply (compare_text "HP:0001250" "HP:0000707"
              "Seizure" "Abnormality of the nervous system"
              "No direct relationship" []),
     [GetTerm "HP:0001250"; GetTerm "HP:0000707";
      GetRelated Ancestors "HP:0001250" (Some 200) None;
      GetRelated Ancestors "HP:0000707" (Some 200) None]).
Proof.
  intros r.
  assert (HmA : missing "HP:0001250" = false) by reflexivity.
  assert (HmB : missing "HP:0000707" = false) by reflexivity.
  assert (HA : fetch_ok (fetched_term r 0 "HP:0001250")
                 (plain_term "HP:0001250" "Seizure")) by (split; reflexivity).
  assert (HB : fetch_ok (fetched_term r 1 "HP:0000707")
                 (plain_term "HP:0000707" "Abnormality of the nervous system"))
    by (split; reflexivity).
  destruct (compare_closure_failure_silent r _ _ _ _ HmA HmB HA HB) as [Hrun _].
  rewrite Hrun. vm_compute. reflexivity.
Defined.

(** ** [getHPOTermStats], case by case *)

Lemma getHPOTermStats_run r args_id :
  missing args_id = false ->
  run (getHPOTermStats args_id) r =
  let T := fetched_term r 0 args_id in
  let A := fetched_related r 1 Ancestors args_id 1000 0 in
  let D := fetched_related r 2 Descendants args_id 1000 0 in
  let P := fetched_related r 3 Parents args_id 100 0 in
  let C := fetched_related r 4 Children args_id 100 0 in
  let fid := formatHPOId args_id in
  (if Js.truthy (error T) then
     reply_error ("Error retrieving term " +:+ args_id +:+ ": "
                    +:+ Js.show_str (error T))
   else
     match data T with
     | None => reply ("Term " +:+ args_id +:+ " not found")
     | Some term =>
         reply (stats_text args_id term (Js.or_nil (data A)) (Js.or_nil (data D))
                  (Js.or_nil (data P)) (Js.or_nil (data C)))
     end,
   [GetTerm fid;
    GetRelated Ancestors fid (Some 1000) None;
    GetRelated Descendants fid (Some 1000) None;
    GetRelated Parents fid (Some 100) None;
    GetRelated Children fid (Some 100) None]).
Proof.
  intros Hm. unfold run, getHPOTermStats. rewrite Hm.
  do 5 api_step.
  destruct (Js.truthy (error (fetched_term r 0 args_id))); [reflexivity |].
  destruct (data (fetched_term r 0 args_id)); reflexivity.
Qed.

(** C3.  In the Statistics Aggregator the term fetch is load-bearing: when
    it fails the operation returns an error result.  When it succeeds, each
    of the four hierarchy fetches contributes on its own: the reported lists
    are the degraded results of the four fetches, so a failed fetch counts 0
    and a successful one counts what it fetched, whatever happened to the
    other three. *)
Theorem stats_partial_tolerance r T :
  missing T = false ->
  let Tm := fetched_term r 0 T in
  let A := fetched_related r 1 Ancestors T 1000 0 in
  let D := fetched_related r 2 Descendants T 1000 0 in
  let P := fetched_related r 3 Parents T 100 0 in
  let C := fetched_related r 4 Children T 100 0 in
  (fetch_failed Tm ->
     (run (getHPOTermStats T) r).1 =
       Return {| text := "Error retrieving term " +:+ T +:+ ": "
                           +:+ Js.show_str (error Tm);
                 isError := true |})
  /\ (forall t, fetch_ok Tm t ->
        (run (getHPOTermStats T) r).1 =
          reply (stats_text T t (degrade A) (degrade D) (degrade P) (degrade C)))
  /\ (forall X, X ∈ [A; D; P; C] ->
        (fetch_failed X -> List.length (degrade X) = 0)
        /\ (forall l, fetch_ok X l -> degrade X = l)).
Proof.
  intros Hm Tm A D P C. rewrite (getHPOTermStats_run r T Hm). cbn zeta. fold Tm.
  split; [| split].
  - unfold fetch_failed. intros ->. reflexivity.
  - intros t [-> ->]. cbn [fst].
    unfold A, D, P, C, fetched_related. rewrite !degrade_or_nil. reflexivity.
  - intros X _. unfold fetch_failed, fetch_ok, degrade. split.
    + intros ->. reflexivity.
    + intros l [-> ->]. reflexivity.
Qed.

Lemma stats_partial_tolerance_witness :
  let r := answer_list sample_source 2 (Rejected timeout_error) in
  fetch_failed (fetched_related r 2 Descendants "HP:0000707" 1000 0)
  /\ (run (getHPOTermStats "HP:0000707") r).1 =
       reply (stats_text "HP:0000707"
                (plain_term "HP:0000707" "Abnormality of the nervous system")
                [abnormality_ref; all_ref] [] [abnormality_ref] [physiology_ref]).
Proof.
  intros r. split; [reflexivity |].
  assert (Hm : missing "HP:0000707" = false) by reflexivity.
  assert (HT : fetch_ok (fetched_term r 0 "HP:0000707")
                 (plain_term "HP:0000707" "Abnormality of the nervous system"))
    by (split; reflexivity).
  destruct (stats_partial_tolerance r "HP:0000707" Hm) as (_ & Hok & _).
  rewrite (Hok _ HT). reflexivity.
Defined.

(** C4, as the code has it.  The Statistics Aggregator's result carries no
    partial-failure flag or marker: whichever request a failure hits, the
    result and the requests issued are exactly those of a run in which that
    request was answered with an empty list, so a failed hierarchy fetch
    shows as a count of 0 and as nothing else. *)
Theorem stats_failure_unmarked r T n e st :
  run (getHPOTermStats T) (answer_list r n (Rejected e)) =
  run (getHPOTermStats T) (answer_list r n (Fulfilled st (ListBare []))).
Proof.
  destruct (missing T) eqn:Hm.
  - unfold run, getHPOTermStats. rewrite Hm. reflexivity.
  - rewrite !(getHPOTermStats_run _ T Hm). cbn zeta.
    unfold fetched_term, fetched_related, answer_list.
    cbn [term_endpoint list_endpoint].
    destruct (1 =? n); destruct (2 =? n); destruct (3 =? n); destruct (4 =? n);
      reflexivity.
Qed.

(** C4, as claimed, fails: take the term HP:0001250, which has no
    descendants.  The run in which the descendant fetch fails while the term
    fetch and the other three succeed, and the run in which all five fetches
    succeed, return the same result, so no flag read off the result can be
    set in the first and clear in the second. *)
Lemma stats_flag_counterexample :
  let T := "HP:0001250" in
  let partial := answer_list sample_source 2 (Rejected timeout_error) in
  (fetch_ok (fetched_term partial 0 T) (plain_term T "Seizure")
   /\ fetch_ok (fetched_related partial 1 Ancestors T 1000 0)
        [physiology_ref; nervous_ref; abnormality_ref; all_ref]
   /\ fetch_failed (fetched_related partial 2 Descendants T 1000 0)
   /\ fetch_ok (fetched_related partial 3 Parents T 100 0) [physiology_ref]
   /\ fetch_ok (fetched_related partial 4 Children T 100 0) [])
  /\ (fetch_ok (fetched_term sample_source 0 T) (plain_term T "Seizure")
      /\ fetch_ok (fetched_related sample_source 1 Ancestors T 1000 0)
           [physiology_ref; nervous_ref; abnormality_ref; all_ref]
      /\ fetch_ok (fetched_related sample_source 2 Descendants T 1000 0) []
      /\ fetch_ok (fetched_related sample_source 3 Parents T 100 0) [physiology_ref]
      /\ fetch_ok (fetched_related sample_source 4 Children T 100 0) [])
  /\ ~ exists flag : Completion -> bool,
         flag (run (getHPOTermStats T) partial).1 = true
         /\ flag (run (getHPOTermStats T) sample_source).1 = false.
Proof.
  intros T partial.
  split; [repeat split; reflexivity |].
  split; [repeat split; reflexivity |].
  intros (flag & Hset & Hclear).
  assert (Hsame : (run (getHPOTermStats T) partial).1
                  = (run (getHPOTermStats T) sample_source).1)
    by (vm_compute; reflexivity).
  rewrite Hsame in Hset. congruence.
Qed.

(** ** [batchGetHPOTerms], case by case *)

Lemma batch_fetch_unfold id r log :
  batch_fetch id r log =
  (batch_entry id (fetched_term r (List.length log) id),
   log ++ [GetTerm (formatHPOId id)]).
Proof. reflexivity. Qed.

Lemma promise_all_batch ids : forall r log,
  promise_all_map batch_fetch ids r log =
  (imap (fun n id => batch_entry id (fetched_term r (List.length log + n) id)) ids,
   log ++ map (fun id => GetTerm (formatHPOId id)) ids).
Proof.
  induction ids as [| id ids IH]; intros r log.
  - cbn [promise_all_map imap map]. rewrite app_nil_r. reflexivity.
  - cbn [promise_all_map]. rewrite bind_unfold, batch_fetch_unfold. cbn [fst snd].
    rewrite bind_unfold, IH. cbn [fst snd imap map].
    rewrite Nat.add_0_r, <- app_assoc. cbn [app]. unfold mret, Api_ret.
    f_equal. f_equal. apply imap_ext. intros n x _. cbn.
    rewrite length_app. cbn [List.length]. do 2 f_equal. lia.
Qed.

Lemma batchGetHPOTerms_run r ids :
  run (batchGetHPOTerms ids) r =
  match ids with
  | [] => (reply "No IDs provided", [])
  | _ :: _ =>
      if 20 <? List.length ids then
        (reply "Maximum 20 terms can be processed at once", [])
      else
        (reply (batch_text (List.length ids) (successful (batch_results r ids))
                  (failed (batch_results r ids))),
         map (fun id => GetTerm (formatHPOId id)) ids)
  end.
Proof.
  unfold run, batchGetHPOTerms. destruct ids as [| id ids]; [reflexivity |].
  cbn [List.length Nat.eqb].
  destruct (20 <? S (List.length ids)); [reflexivity |].
  rewrite bind_unfold, promise_all_batch. reflexivity.
Qed.

Section Batch.

Lemma batch_results_ids (g : nat -> string -> ApiResponse OntologyTerm) ids :
  map be_id (imap (fun n id => batch_entry id (g n id)) ids) = ids.
Proof.
  revert g. induction ids as [| id ids IH]; intros g; [reflexivity |].
  cbn [imap map batch_entry be_id]. f_equal.
  exact (IH (fun n => g (S n))).
Qed.

Lemma filter_sublist {A} (f : A -> bool) (l : list A) : sublist (List.filter f l) l.
Proof.
  induction l as [| x l IH]; [constructor |].
  cbn [List.filter]. destruct (f x); constructor; exact IH.
Qed.

Lemma map_sublist {A B} (f : A -> B) (l k : list A) :
  sublist l k -> sublist (map f l) (map f k).
Proof. induction 1; cbn [map]; constructor; assumption. Qed.

Lemma batch_results_lookup r ids n id :
  ids !! n = Some id ->
  batch_results r ids !! n = Some (batch_entry id (fetched_term r n id)).
Proof.
  intros Hn. unfold batch_results. rewrite list_lookup_imap, Hn. reflexivity.
Qed.

Lemma batch_results_other r ids n res m :
  m <> n ->
  batch_results (answer_term r n res) ids !! m = batch_results r ids !! m.
Proof.
  intros Hne. unfold batch_results. rewrite !list_lookup_imap.
  destruct (ids !! m) as [id |]; [| reflexivity]. cbn.
  unfold fetched_term, answer_term. cbn [term_endpoint].
  rewrite (proj2 (Nat.eqb_neq m n) Hne). reflexivity.
Qed.

End Batch.

(** C5.  For an input list of at most 20 ids, the Batch Retrieval
    Coordinator issues one term request per id, in input order, and builds
    the [n]-th outcome from the [n]-th id and the answer to the [n]-th
    request alone: changing the answer to one request, for instance into a
    failure, changes no other outcome.  The output is made of the successes
    and of the failures, two subsequences of the outcomes that keep the input
    order.  For [[A; B; C]] with B failing and A, C succeeding, the
    successes are [[A; C]] and the failures [[B]]. *)
Theorem batch_partition r ids :
  List.length ids <= 20 ->
  let results := batch_results r ids in
  run (batchGetHPOTerms ids) r =
    match ids with
    | [] => (reply "No IDs provided", [])
    | _ :: _ =>
        (reply (batch_text (List.length ids) (successful results) (failed results)),
         map (fun id => GetTerm (formatHPOId id)) ids)
    end
  /\ map be_id results = ids
  /\ (forall n id, ids !! n = Some id ->
        results !! n = Some (batch_entry id (fetched_term r n id)))
  /\ (forall n res m, m <> n ->
        batch_results (answer_term r n res) ids !! m = results !! m)
  /\ successful results = List.filter be_success results
  /\ failed results = List.filter (fun o => negb (be_success o)) results
  /\ sublist (map be_id (successful results)) ids
  /\ sublist (map be_id (failed results)) ids
  /\ (forall A B C, ids = [A; B; C] ->
        Js.truthy (error (fetched_term r 0 A)) = false ->
        fetch_failed (fetched_term r 1 B) ->
        Js.truthy (error (fetched_term r 2 C)) = false ->
        map be_id (successful results) = [A; C]
        /\ map be_id (failed results) = [B]).
Proof.
  intros Hcap results.
  assert (Hids : map be_id results = ids) by apply batch_results_ids.
  repeat match goal with |- _ /\ _ => split end.
  - rewrite batchGetHPOTerms_run. destruct ids as [| id ids]; [reflexivity |].
    rewrite (proj2 (Nat.ltb_ge 20 (List.length (id :: ids)))) by exact Hcap.
    reflexivity.
  - exact Hids.
  - intros n id. apply batch_results_lookup.
  - intros n res m. apply batch_results_other.
  - reflexivity.
  - reflexivity.
  - pose proof (map_sublist be_id _ _ (filter_sublist be_success results)) as Hsub.
    rewrite Hids in Hsub. exact Hsub.
  - pose proof (map_sublist be_id _ _
                  (filter_sublist (fun o => negb (be_success o)) results)) as Hsub.
    rewrite Hids in Hsub. exact Hsub.
  - intros A B C -> HA HB HC. unfold fetch_failed in HB.
    unfold results, batch_results, successful, failed.
    cbn [imap batch_entry List.filter be_success compose].
    rewrite HA, HB, HC. split; reflexivity.
Qed.

Lemma batch_partition_witness :
  let ids := ["HP:0001250"; "HP:9999999"; "HP:0000707"] in
  let results := batch_results sample_source ids in
  (run (batchGetHPOTerms ids) sample_source).2 =
    [GetTerm "HP:0001250"; GetTerm "HP:9999999"; GetTerm "HP:0000707"]
  /\ map be_id (successful results) = ["HP:0001250"; "HP:0000707"]
  /\ map be_id (failed results) = ["HP:9999999"].
Proof.
  intros ids results.
  assert (Hcap : List.length ids <= 20) by (vm_compute; lia).
  destruct (batch_partition sample_source ids Hcap)
    as (Hrun & _ & _ & _ & _ & _ & _ & _ & Hscenario).
  split; [rewrite Hrun; reflexivity |].
  apply (Hscenario "HP:0001250" "HP:9999999" "HP:0000707"); reflexivity.
Defined.

(** C6.  For an input list of more than 20 ids the Batch Retrieval
    Coordinator reports the cap violation and issues no request; for the
    empty list it returns the nothing-to-do result, which is not an error
    and differs from the cap report, and issues no request either. *)
Theorem batch_cap r ids :
  20 < List.length ids ->
  run (batchGetHPOTerms ids) r =
    (Return {| text := "Maximum 20 terms can be processed at once"; isError := false |},
     [])
  /\ run (batchGetHPOTerms []) r =
       (Return {| text := "No IDs provided"; isError := false |}, []).
Proof.
  intros Hcap. split; [| reflexivity].
  rewrite batchGetHPOTerms_run. destruct ids as [| id ids]; [cbn in Hcap; lia |].
  rewrite (proj2 (Nat.ltb_lt 20 (List.length (id :: ids)))) by exact Hcap.
  reflexivity.
Qed.

Lemma batch_cap_witness :
  run (batchGetHPOTerms (replicate 21 "HP:0001250")) sample_source =
    (reply "Maximum 20 terms can be processed at once", []).
Proof.
  assert (Hcap : 20 < List.length (replicate 21 "HP:0001250")) by (vm_compute; lia).
  exact (proj1 (batch_cap sample_source (replicate 21 "HP:0001250") Hcap)).
Defined.

(** ** Path reconstruction over a paginating source *)

Lemma window_200 {A} page (l : list A) :
  window page (query_param (Some 200)) (query_param (Some 0)) l = take 200 l.
Proof. reflexivity. Qed.

Lemma paged_path_run page terms closure T t :
  missing T = false ->
  terms (formatHPOId T) = Some t ->
  run (getHPOTermPath T) (paged_source page terms closure) =
    (reply (path_text T (pathTerms (take 200 (closure Ancestors (formatHPOId T))) t)),
     [GetTerm (formatHPOId T);
      GetRelated Ancestors (formatHPOId T) (Some 200) None]).
Proof.
  intros Hm Ht. rewrite (getHPOTermPath_run _ T Hm). cbn zeta.
  unfold fetched_term, fetched_related, paged_source.
  cbn [term_endpoint list_endpoint]. rewrite Ht, window_200. reflexivity.
Qed.

(** C8, as the code has it.  The Path Reconstructor asks for the ancestor
    closure with a window of 200 entries and builds the path from the
    entries returned, and from nothing else: over a hierarchy in which the
    term has more than 200 ancestors, the result is exactly the one obtained
    over the hierarchy cut down to the first 200 entries of each closure,
    so nothing in the result tells a truncated path from a complete one. *)
Theorem path_truncation_unmarked page terms closure T t :
  missing T = false ->
  terms (formatHPOId T) = Some t ->
  run (getHPOTermPath T) (paged_source page terms closure) =
    (reply (path_text T (pathTerms (take 200 (closure Ancestors (formatHPOId T))) t)),
     [GetTerm (formatHPOId T);
      GetRelated Ancestors (formatHPOId T) (Some 200) None])
  /\ run (getHPOTermPath T) (paged_source page terms closure) =
     run (getHPOTermPath T)
         (paged_source page terms (fun rel i => take 200 (closure rel i))).
Proof.
  intros Hm Ht. split; [exact (paged_path_run page terms closure T t Hm Ht) |].
  rewrite !(paged_path_run page terms _ T t Hm Ht), take_idemp. reflexivity.
Qed.

Lemma path_truncation_unmarked_witness :
  List.length (deep_closure 201) = 201
  /\ run (getHPOTermPath "HP:0001250") (deep_source 201) =
     (reply (path_text "HP:0001250"
               (pathTerms (take 200 (deep_closure 201))
                          (plain_term "HP:0001250" "Leaf"))),
      [GetTerm "HP:0001250"; GetRelated Ancestors "HP:0001250" (Some 200) None]).
Proof.
  split; [reflexivity |].
  assert (Hm : missing "HP:0001250" = false) by reflexivity.
  assert (Ht : (fun i => Some (plain_term i "Leaf")) (formatHPOId "HP:0001250")
               = Some (plain_term "HP:0001250" "Leaf")) by reflexivity.
  destruct (path_truncation_unmarked 50
              (fun i => Some (plain_term i "Leaf"))
              (fun rel _ => match rel with Ancestors => deep_closure 201 | _ => [] end)
              "HP:0001250" (plain_term "HP:0001250" "Leaf") Hm Ht) as [Hrun _].
  unfold deep_source. rewrite Hrun. reflexivity.
Defined.

(** C8, as claimed, fails: over a hierarchy in which HP:0001250 has 201
    ancestors the 200-entry window returns a truncated closure, over the
    hierarchy cut down to those 200 ancestors it returns the complete one,
    and the two results are the same, so no mark read off the result can
    declare the first path partial and the second complete. *)
Lemma path_partial_counterexample :
  let T := "HP:0001250" in
  let complete :=
    paged_source 50 (fun i => Some (plain_term i "Leaf"))
      (fun rel _ => match rel with
                    | Ancestors => take 200 (deep_closure 201)
                    | _ => []
                    end) in
  (List.length (deep_closure 201) = 201
   /\ List.length (Js.or_nil (data (fetched_related (deep_source 201) 1 Ancestors T 200 0)))
      = 200)
  /\ fetch_ok (fetched_related complete 1 Ancestors T 200 0) (take 200 (deep_closure 201))
  /\ ~ exists partial : Completion -> bool,
         partial (run (getHPOTermPath T) (deep_source 201)).1 = true
         /\ partial (run (getHPOTermPath T) complete).1 = false.
Proof.
  intros T complete.
  split; [split; vm_compute; reflexivity |].
  split; [split; vm_compute; reflexivity |].
  intros (partial & Hset & Hclear).
  assert (Hsame : (run (getHPOTermPath T) (deep_source 201)).1
                  = (run (getHPOTermPath T) complete).1).
  { unfold deep_source, complete.
    rewrite !(paged_path_run 50 _ _ T (plain_term T "Leaf") eq_refl eq_refl).
    cbn beta iota. rewrite take_idemp. reflexivity. }
  rewrite Hsame in Hset. congruence.
Qed.

(** ** The handlers on the sample hierarchy *)

Example path_of_seizure :
  (run (getHPOTermPath "HP:0001250") sample_source).1 =
  reply "Hierarchical path to HP:0001250:

├ HP:0000001: All
  ├ HP:0000118: Phenotypic abnormality
    ├ HP:0000707: Abnormality of the nervous system
      ├ HP:0012638: Abnormal nervous system physiology
        → HP:0001250: Seizure

Path depth: 4 levels".
Proof. vm_compute. reflexivity. Qed.

Example path_of_root :
  (run (getHPOTermPath "1") sample_source).1 =
  reply "Hierarchical path to 1:

→ HP:0000001: All

Path depth: 0 levels".
Proof. vm_compute. reflexivity. Qed.

Example compare_siblings :
  (run (compareHPOTerms "HP:0000707" "HP:0000152") sample_source).1 =
  reply "**Comparison of HPO Terms:**

**Term 1:** HP:0000707: Abnormality of the nervous system
**Term 2:** HP:0000152: Abnormality of head or neck

**Relationship:** Related through common ancestors

**Common Ancestors (2):**
  • HP:0000118: Phenotypic abnormality
  • HP:0000001: All
".
Proof. vm_compute. reflexivity. Qed.

Example compare_unknown_term :
  (run (compareHPOTerms "HP:0000707" "HP:9999999") sample_source).1 =
  reply_error "Error retrieving terms: HPO API Error (404): Request failed with status code 404".
Proof. vm_compute. reflexivity. Qed.

Example stats_of_abnormality :
  (run (getHPOTermStats "HP:0000118") sample_source).1 =
  reply "**Statistics for HP:0000118:**

**Name:** Phenotypic abnormality

**Hierarchy Statistics:**
  • Ancestors: 1
  • Direct Parents: 1
  • Direct Children: 2
  • All Descendants: 4
  • Depth from Root: 1

**Term Properties:**
  • Synonyms: 0
  • Cross-references: 0
  • Alternative IDs: 0
  • Obsolete: No
".
Proof. vm_compute. reflexivity. Qed.

Example batch_of_three :
  (run (batchGetHPOTerms ["HP:0001250"; "HP:9999999"; "707"]) sample_source).1 =
  reply "**Batch Processing Results:**

**Summary:** 2/3 terms retrieved successfully

**Successfully Retrieved Terms:**
• HP:0001250: Seizure

• 707: Abnormality of the nervous system

**Failed Terms:**
• HP:9999999: HPO API Error (404): Request failed with status code 404
".
Proof. vm_compute. reflexivity. Qed.

Example formatHPOId_short : formatHPOId "1250" = "HP:0001250".
Proof. reflexivity. Qed.

Example formatHPOId_long : formatHPOId "123456789" = "HP:123456789".
Proof. reflexivity. Qed.

Example isValidHPOId_short : isValidHPOId "1250" = false.
Proof. reflexivity. Qed.

(** * Further properties *)

(** ** Strings *)

Section Strings.

Lemma str_length_app s t : String.length (s +:+ t) = String.length s + String.length t.
Proof. induction s as [| c s IH]; [reflexivity | exact (f_equal S IH)]. Qed.

Lemma str_app_assoc s t u : (s +:+ t) +:+ u = s +:+ (t +:+ u).
Proof. induction s as [| c s IH]; [reflexivity | exact (f_equal (String c) IH)]. Qed.



Lemma str_app_nil_r s : s +:+ "" = s.
Proof. induction s as [| c s IH]; [reflexivity | exact (f_equal (String c) IH)]. Qed.

Lemma repeat_char_length c n : String.length (Js.repeat_char c n) = n.
Proof. induction n as [| n IH]; [reflexivity | exact (f_equal S IH)]. Qed.

Lemma all_digit_app s t : Js.all_digit (s +:+ t) = Js.all_digit s && Js.all_digit t.
Proof.
  induction s as [| c s IH]; [reflexivity |].
  change (Js.is_digit c && Js.all_digit (s +:+ t)
          = Js.is_digit c && Js.all_digit s && Js.all_digit t).
  rewrite IH, andb_assoc. reflexivity.
Qed.

Lemma all_digit_zeros n : Js.all_digit (Js.repeat_char "0" n) = true.
Proof. induction n as [| n IH]; [reflexivity | exact IH]. Qed.

Lemma prefixed_not_digits x : Js.startsWith x "HP:" = true -> Js.test_digits x = false.
Proof.
  intros Hp. destruct (Js.test_digits x) eqn:Hd; [| reflexivity].
  rewrite (digits_not_prefixed x Hd) in Hp. discriminate Hp.
Qed.

Lemma unprefixed_not_canonical x :
  Js.startsWith x "HP:" = false -> Js.test_canonical x = false.
Proof.
  intros Hp. destruct (Js.test_canonical x) eqn:Hc; [| reflexivity].
  rewrite (canonical_prefixed x Hc) in Hp. discriminate Hp.
Qed.

Lemma formatHPOId_digits s :
  Js.test_digits s = true -> formatHPOId s = "HP:" +:+ Js.padStart s 7 "0".
Proof.
  intros Hd. unfold formatHPOId. rewrite (digits_not_prefixed s Hd), Hd. reflexivity.
Qed.

Lemma canonical_HP d : Js.test_canonical ("HP:" +:+ d) = Js.test_7digits d.
Proof. reflexivity. Qed.

End Strings.

(** ** The formatter and the validator together *)

(** X1.  Every id the validator [isValidHPOId] accepts is sent by
    [formatHPOId] to a canonical [HP:] id of seven digits. *)
Theorem valid_id_formats_canonical x :
  isValidHPOId x = true -> Js.test_canonical (formatHPOId x) = true.
Proof.
  unfold isValidHPOId. intros [Hc | H7]%orb_prop.
  - rewrite (formatHPOId_prefixed x (canonical_prefixed x Hc)). exact Hc.
  - rewrite (formatHPOId_digits x (seven_digits_are_digits x H7)), canonical_HP.
    pose proof H7 as [Hl _]%andb_prop. apply Nat.eqb_eq in Hl.
    rewrite padStart_full by lia. exact H7.
Qed.

Lemma valid_id_formats_canonical_witness :
  Js.test_canonical (formatHPOId "0001250") = true.
Proof. apply valid_id_formats_canonical. reflexivity. Defined.

Lemma format_canonical_iff_digits x :
  Js.test_digits x = true ->
  Js.test_canonical (formatHPOId x) = (String.length x <=? 7).
Proof.
  intros Hd. rewrite (formatHPOId_digits x Hd), canonical_HP.
  unfold Js.test_7digits, Js.padStart.
  rewrite str_length_app, repeat_char_length, all_digit_app, all_digit_zeros.
  assert (Hall : Js.all_digit x = true) by (destruct x; [discriminate Hd | exact Hd]).
  rewrite Hall, andb_true_r.
  destruct (Nat.leb_spec (String.length x) 7) as [Hle | Hgt].
  - apply Nat.eqb_eq. lia.
  - apply Nat.eqb_neq. lia.
Qed.

(** X2.  [formatHPOId] produces a canonical id in two cases only: the input
    is canonical already, or it is a string of one to seven digits.  A longer
    digit string is prefixed but stays non-canonical, and any other input is
    not repaired. *)
Theorem format_canonical_iff x :
  Js.test_canonical (formatHPOId x) =
  Js.test_canonical x || (Js.test_digits x && (String.length x <=? 7)).
Proof.
  destruct (Js.startsWith x "HP:") eqn:Hp.
  - rewrite (formatHPOId_prefixed x Hp), (prefixed_not_digits x Hp), orb_false_r.
    reflexivity.
  - rewrite (unprefixed_not_canonical x Hp). cbn [orb].
    destruct (Js.test_digits x) eqn:Hd.
    + cbn [andb]. apply (format_canonical_iff_digits x Hd).
    + unfold formatHPOId. rewrite Hp, Hd. apply (unprefixed_not_canonical x Hp).
Qed.

(** X3.  The client formats the id it is given before it builds the
    request, and formatting is idempotent: a term or hierarchy request for
    an id and for its formatted form are the same request with the same
    answer. *)
Theorem client_formats_once x rel mx off r log :
  getTerm (formatHPOId x) r log = getTerm x r log
  /\ getRelated rel {| hp_id := formatHPOId x; hp_max := mx; hp_offset := off |} r log
     = getRelated rel {| hp_id := x; hp_max := mx; hp_offset := off |} r log.
Proof.
  split.
  - rewrite !getTerm_unfold. unfold fetched_term.
    rewrite formatHPOId_idem. reflexivity.
  - unfold getRelated. cbn [hp_id hp_max hp_offset].
    rewrite formatHPOId_idem. reflexivity.
Qed.


(** ** The listing handlers *)

Section Listing.

Lemma arg_or_pos o d : 1 <= d -> 1 <= arg_or o d.
Proof. destruct o as [[| n] |]; cbn; lia. Qed.

Lemma arg_capped_pos o cap d : 1 <= cap -> 1 <= d -> 1 <= arg_capped o cap d.
Proof. destruct o as [[| n] |]; unfold arg_capped; cbn -[Nat.min]; lia. Qed.


Lemma listing_max_pos rel mx : 1 <= listing_max rel mx.
Proof.
  destruct rel; cbn [listing_max];
    first [apply arg_or_pos; lia | apply arg_capped_pos; lia].
Qed.

Lemma query_param_pos n : 1 <= n -> query_param (Some n) = Some n.
Proof. destruct n; [lia | reflexivity]. Qed.

Lemma num_or_pos n d : 1 <= n -> num_or n d = n.
Proof. destruct n; [lia | reflexivity]. Qed.

(** The request and the response of a listing handler. *)
Lemma listing_run rel r x mx off :
  missing x = false ->
  let m := listing_max rel mx in
  let resp := fetched_related r 0 rel x m (arg_or off 0) in
  let found := Js.or_nil (data resp) in
  run (listing_handler rel x mx off) r =
  (if Js.truthy (error resp) then
     reply_error ("Error retrieving "
                    +:+ match rel with
                        | Ancestors => "ancestors"
                        | Parents => "parents"
                        | Children => "children"
                        | Descendants => "descendants"
                        end
                    +:+ " for " +:+ x +:+ ": " +:+ Js.show_str (error resp))
   else if List.length found =? 0 then
     reply (match rel with
            | Ancestors => "No ancestors found for HPO term "
            | Parents => "No direct parents found for HPO term "
            | Children => "No direct children found for HPO term "
            | Descendants => "No descendants found for HPO term "
            end +:+ x)
   else
     reply (match rel with
            | Ancestors => "Ancestors of " +:+ x +:+ ":"
            | Parents => "Direct parents of " +:+ x +:+ ":"
            | Children => "Direct children of " +:+ x +:+ ":"
            | Descendants =>
                "Descendants of " +:+ x +:+ " (showing "
                  +:+ Js.show (List.length found) +:+ " terms):"
            end
            +:+ Js.nl +:+ Js.nl +:+ Js.join Js.nl (map term_bullet found)
            +:+ match rel with
                | Descendants =>
                    Js.nl +:+ Js.nl
                      +:+ (if m <=? List.length found
                           then "Use offset parameter to see more results."
                           else "")
                | _ => ""
                end),
   [GetRelated rel (formatHPOId x) (Some m) (query_param (Some (arg_or off 0)))]).
Proof.
  intros Hm m resp found.
  assert (Hq : query_param (Some m) = Some m)
    by (apply query_param_pos, listing_max_pos).
  assert (Hn : num_or m 50 = m) by (apply num_or_pos, listing_max_pos).
  unfold run. subst found resp m.
  destruct rel; cbn [listing_handler listing_max] in *;
    [ unfold getHPOAncestors | unfold getHPOParents | unfold getHPOChildren
    | unfold getHPODescendants; cbn zeta ];
    rewrite Hm; api_step; rewrite Hq;
    match goal with
    | |- context [Js.truthy (error ?R)] => destruct (Js.truthy (error R))
    end; try reflexivity;
    match goal with
    | |- context [List.length ?L =? 0] => destruct (List.length L =? 0)
    end; try reflexivity.
  - rewrite !str_app_assoc, str_app_nil_r. reflexivity.
  - rewrite !str_app_assoc, str_app_nil_r. reflexivity.
  - rewrite !str_app_assoc, str_app_nil_r. reflexivity.
  - rewrite Hn, !str_app_assoc. reflexivity.
Qed.

End Listing.



(** X6.  In every listing handler an empty list and a failure are kept
    apart: a failed fetch gives an error result that carries the client's
    message, a successful fetch of no term gives the "No ... found" notice,
    which is not an error, and a successful fetch of some terms gives one
    bullet per term, in the order the source returned them (the descendants'
    listing, which adds a count and a closing hint, is stated on its own). *)
Theorem listing_outcomes rel r x mx off :
  missing x = false ->
  let resp := fetched_related r 0 rel x (listing_max rel mx) (arg_or off 0) in
  let noun := match rel with
              | Ancestors => "ancestors"
              | Parents => "parents"
              | Children => "children"
              | Descendants => "descendants"
              end in
  let notice := match rel with
                | Ancestors => "No ancestors found for HPO term "
                | Parents => "No direct parents found for HPO term "
                | Children => "No direct children found for HPO term "
                | Descendants => "No descendants found for HPO term "
                end in
  (fetch_failed resp ->
     (run (listing_handler rel x mx off) r).1 =
       reply_error ("Error retrieving " +:+ noun +:+ " for " +:+ x +:+ ": "
                      +:+ Js.show_str (error resp)))
  /\ (fetch_ok resp [] ->
        (run (listing_handler rel x mx off) r).1 = reply (notice +:+ x))
  /\ (forall t ts, fetch_ok resp (t :: ts) -> rel <> Descendants ->
        (run (listing_handler rel x mx off) r).1 =
          reply (match rel with
                 | Ancestors => "Ancestors of "
                 | Parents => "Direct parents of "
                 | _ => "Direct children of "
                 end +:+ x +:+ ":" +:+ Js.nl +:+ Js.nl
                   +:+ Js.join Js.nl (map term_bullet (t :: ts)))).
Proof.
  intros Hm resp noun notice. rewrite (listing_run rel r x mx off Hm). cbn zeta.
  fold resp. unfold fetch_failed, fetch_ok.
  split; [| split].
  - intros ->. reflexivity.
  - intros [-> ->]. reflexivity.
  - intros t ts [-> ->] Hrel. cbn [fst Js.or_nil List.length Nat.eqb].
    destruct rel; try contradiction;
      rewrite !str_app_assoc, str_app_nil_r; reflexivity.
Qed.

Lemma listing_outcomes_witness :
  (run (getHPOChildren "HP:0001250" None None) sample_source).1 =
    reply "No direct children found for HPO term HP:0001250"
  /\ (run (getHPOChildren "HP:0001250" None None)
        (answer_list sample_source 0 (Rejected timeout_error))).1 =
       reply_error "Error retrieving children for HP:0001250: HPO API is not responding. Please check your internet connection.".
Proof.
  split.
  - apply (proj1 (proj2 (listing_outcomes Children sample_source "HP:0001250"
                           None None eq_refl))).
    split; reflexivity.
  - apply (proj1 (listing_outcomes Children
                    (answer_list sample_source 0 (Rejected timeout_error))
                    "HP:0001250" None None eq_refl)).
    reflexivity.
Defined.

(** X7.  [getHPODescendants] closes its listing with the hint "Use offset
    parameter to see more results." exactly when the number of descendants
    returned reaches the window it asked for, and with nothing otherwise. *)
Theorem descendants_more_hint r x mx off found :
  missing x = false ->
  found <> [] ->
  fetch_ok (fetched_related r 0 Descendants x (arg_capped mx 100 50) (arg_or off 0))
           found ->
  (run (getHPODescendants x mx off) r).1 =
    reply ("Descendants of " +:+ x +:+ " (showing " +:+ Js.show (List.length found)
             +:+ " terms):" +:+ Js.nl +:+ Js.nl
             +:+ Js.join Js.nl (map term_bullet found) +:+ Js.nl +:+ Js.nl
             +:+ (if arg_capped mx 100 50 <=? List.length found
                  then "Use offset parameter to see more results."
                  else "")).
Proof.
  intros Hm Hne [He Hd].
  change (getHPODescendants x mx off) with (listing_handler Descendants x mx off).
  rewrite (listing_run Descendants r x mx off Hm). cbn zeta.
  cbn [listing_max fst]. rewrite He, Hd. cbn [Js.or_nil].
  destruct found as [| t ts]; [contradiction |].
  cbn [List.length Nat.eqb]. rewrite !str_app_assoc. reflexivity.
Qed.

Lemma descendants_more_hint_witness :
  (run (getHPODescendants "HP:0000118" (Some 2) None) sample_source).1 =
    reply ("Descendants of HP:0000118 (showing 2 terms):" +:+ Js.nl +:+ Js.nl
             +:+ "• HP:0000707: Abnormality of the nervous system" +:+ Js.nl
             +:+ "• HP:0000152: Abnormality of head or neck" +:+ Js.nl +:+ Js.nl
             +:+ "Use offset parameter to see more results.").
Proof.
  assert (Hne : [nervous_ref; head_ref] <> []) by discriminate.
  assert (Hok : fetch_ok (fetched_related sample_source 0 Descendants "HP:0000118"
                            (arg_capped (Some 2) 100 50) (arg_or None 0))
                  [nervous_ref; head_ref]) by (split; reflexivity).
  rewrite (descendants_more_hint sample_source "HP:0000118" (Some 2) None _
             eq_refl Hne Hok).
  reflexivity.
Defined.

(** ** [validateHPOId] *)

Lemma validateHPOId_run r x :
  missing x = false ->
  run (validateHPOId x) r =
  if isValidHPOId x then
    (let T := fetched_term r 0 x in
     if Js.truthy (error T) then
       reply ("ID " +:+ JsText.dq +:+ x +:+ JsText.dq
                +:+ " has valid HPO format but term not found: "
                +:+ Js.show_str (error T))
     else
       reply ("✅ Valid HPO ID: " +:+ JsText.dq +:+ x +:+ JsText.dq
                +:+ " (formatted as " +:+ JsText.dq +:+ formatHPOId x
                +:+ JsText.dq +:+ ")" +:+ Js.nl
                +:+ "Term exists: " +:+ Js.or_str (name <$> data T) "Unknown"),
     [GetTerm (formatHPOId x)])
  else
    (reply ("❌ Invalid HPO ID format: " +:+ JsText.dq +:+ x +:+ JsText.dq
              +:+ Js.nl +:+ "Valid format: HP:XXXXXXX (e.g., HP:0000001)"), []).
Proof.
  intros Hm. unfold run, validateHPOId. rewrite Hm. cbn zeta.
  destruct (isValidHPOId x); [| reflexivity].
  api_step. destruct (Js.truthy (error (fetched_term r 0 x))); reflexivity.
Qed.

(** X8.  [validateHPOId] answers an id of invalid format without asking
    the source: no request is issued and the result is the invalid-format
    notice, which is not an error. *)
Theorem validate_invalid_no_fetch r x :
  missing x = false ->
  isValidHPOId x = false ->
  run (validateHPOId x) r =
    (Return {| text := "❌ Invalid HPO ID format: " +:+ JsText.dq +:+ x +:+ JsText.dq
                         +:+ Js.nl
                         +:+ "Valid format: HP:XXXXXXX (e.g., HP:0000001)";
               isError := false |}, []).
Proof.
  intros Hm Hv. rewrite (validateHPOId_run r x Hm), Hv. reflexivity.
Qed.

Lemma validate_invalid_no_fetch_witness :
  (run (validateHPOId "HP:123") sample_source).2 = [].
Proof.
  rewrite (validate_invalid_no_fetch sample_source "HP:123" eq_refl eq_refl).
  reflexivity.
Defined.

(** X9.  The validator is stricter than the formatter: a string of one to
    six digits is rejected by [isValidHPOId] although [formatHPOId] turns it
    into a canonical id, so [validateHPOId] reports as invalid an id that
    the lookup handlers would resolve. *)
Theorem short_digits_invalid_but_formatted r s :
  Js.test_digits s = true ->
  String.length s < 7 ->
  isValidHPOId s = false
  /\ Js.test_canonical (formatHPOId s) = true
  /\ (run (validateHPOId s) r).2 = []
  /\ (run (getTerm s) r).2 = [GetTerm ("HP:" +:+ Js.padStart s 7 "0")].
Proof.
  intros Hd Hl.
  assert (Hm : missing s = false) by (destruct s; [discriminate Hd | reflexivity]).
  assert (Hv : isValidHPOId s = false).
  { unfold isValidHPOId.
    rewrite (unprefixed_not_canonical s (digits_not_prefixed s Hd)).
    unfold Js.test_7digits. rewrite (proj2 (Nat.eqb_neq _ _)) by lia. reflexivity. }
  split; [exact Hv | split; [| split]].
  - rewrite format_canonical_iff_digits by assumption.
    apply Nat.leb_le. lia.
  - rewrite (validateHPOId_run r s Hm), Hv. reflexivity.
  - unfold run. rewrite getTerm_unfold, (formatHPOId_digits s Hd). reflexivity.
Qed.

Lemma short_digits_invalid_but_formatted_witness :
  isValidHPOId "1250" = false /\ formatHPOId "1250" = "HP:0001250".
Proof.
  split; [| reflexivity].
  apply (short_digits_invalid_but_formatted sample_source "1250"); [reflexivity |].
  vm_compute. lia.
Defined.

(** X10.  [validateHPOId] never returns an error result: it throws exactly
    when the id is missing, and otherwise returns a result without the
    error flag, also when the term fetch failed; it issues at most one
    request. *)
Theorem validate_never_error r x :
  match (run (validateHPOId x) r).1 with
  | Return res => isError res = false /\ missing x = false
  | Throw m => m = "ID parameter is required and must be a string" /\ missing x = true
  end
  /\ List.length (run (validateHPOId x) r).2 <= 1.
Proof.
  destruct (missing x) eqn:Hm.
  - unfold run, validateHPOId. rewrite Hm. cbn. auto.
  - rewrite (validateHPOId_run r x Hm).
    destruct (isValidHPOId x); [| cbn; auto].
    cbn zeta. destruct (Js.truthy (error (fetched_term r 0 x))); cbn; auto.
Qed.

(** ** [getHPOTerm] *)

Section Trim.





End Trim.

Lemma getHPOTerm_run r x :
  missing x = false ->
  run (getHPOTerm x) r =
  (let T := fetched_term r 0 x in
   if Js.truthy (error T) then
     reply_error ("Error retrieving HPO term " +:+ x +:+ ": " +:+ Js.show_str (error T))
   else
     match data T with
     | None => reply ("HPO term " +:+ x +:+ " not found")
     | Some term => reply (JsText.trim (term_output term))
     end,
   [GetTerm (formatHPOId x)]).
Proof.
  intros Hm. unfold run, getHPOTerm. rewrite Hm. api_step. cbn zeta.
  destruct (Js.truthy (error (fetched_term r 0 x))); [reflexivity |].
  destruct (data (fetched_term r 0 x)); reflexivity.
Qed.

(** X11.  [getHPOTerm] issues exactly one request, for the formatted id.
    A failed fetch gives an error result with the client's message; a fetch
    that succeeds without a record gives the not-found notice, which is not
    flagged as an error. *)
Theorem getHPOTerm_failure_and_absence r x :
  missing x = false ->
  let T := fetched_term r 0 x in
  (run (getHPOTerm x) r).2 = [GetTerm (formatHPOId x)]
  /\ (fetch_failed T ->
        (run (getHPOTerm x) r).1 =
          Return {| text := "Error retrieving HPO term " +:+ x +:+ ": "
                              +:+ Js.show_str (error T);
                    isError := true |})
  /\ (fetch_not_found T ->
        (run (getHPOTerm x) r).1 =
          Return {| text := "HPO term " +:+ x +:+ " not found"; isError := false |}).
Proof.
  intros Hm T. rewrite (getHPOTerm_run r x Hm). cbn zeta. fold T.
  unfold fetch_failed, fetch_not_found. split; [reflexivity | split].
  - intros ->. reflexivity.
  - intros [-> ->]. reflexivity.
Qed.

Lemma getHPOTerm_failure_and_absence_witness :
  run (getHPOTerm "9999999") sample_source =
    (reply_error "Error retrieving HPO term 9999999: HPO API Error (404): Request failed with status code 404",
     [GetTerm "HP:9999999"]).
Proof.
  destruct (getHPOTerm_failure_and_absence sample_source "9999999" eq_refl)
    as (Hlog & Hfail & _).
  rewrite (surjective_pairing (run (getHPOTerm "9999999") sample_source)).
  rewrite Hlog, Hfail by reflexivity. reflexivity.
Defined.



(** ** The catalogue handlers *)

Lemma catalog_bind_unfold {A B} (m : Catalog A) (f : A -> Catalog B) r log :
  (m ≫= f) r log = f (m r log).1 r (m r log).2.
Proof. unfold mbind, Catalog_bind. destruct (m r log); reflexivity. Qed.

Lemma searchTerms_unfold params r log :
  searchTerms params r log =
  (search_response
     (search_endpoint r (List.length log) (sp_q params)
        (query_param (sp_max params)) (query_param (sp_offset params))
        (Js.or_nil (sp_category params))),
   log ++ [Search (sp_q params) (query_param (sp_max params))
             (query_param (sp_offset params)) (Js.or_nil (sp_category params))]).
Proof. reflexivity. Qed.


Lemma searchHPOTerms_run r query mx off cat :
  missing query = false ->
  let m := arg_or mx 20 in
  let o := arg_or off 0 in
  let resp := search_response
                (search_endpoint r 0 query (Some m) (query_param (Some o))
                   (Js.or_nil cat)) in
  let terms := default [] (res_terms <$> data resp) in
  let totalResults :=
    num_or (default 0 (data resp ≫= res_totalResults)) (List.length terms) in
  run_catalog (searchHPOTerms query mx off cat) r =
  (if Js.truthy (error resp) then
     reply_error ("Error searching HPO terms: " +:+ Js.show_str (error resp))
   else if List.length terms =? 0 then
     reply ("No HPO terms found for query: " +:+ JsText.dq +:+ query +:+ JsText.dq)
   else
     reply ("Found " +:+ Js.show totalResults +:+ " HPO terms matching "
              +:+ JsText.dq +:+ query +:+ JsText.dq +:+ ":" +:+ Js.nl +:+ Js.nl
              +:+ Js.join (Js.nl +:+ Js.nl) (map search_item terms)
              +:+ search_pagination m o (List.length terms) totalResults),
   [Search query (Some m) (query_param (Some o)) (Js.or_nil cat)]).
Proof.
  intros Hm. cbn zeta.
  assert (Hq : query_param (Some (arg_or mx 20)) = Some (arg_or mx 20))
    by (apply query_param_pos, arg_or_pos; lia).
  unfold run_catalog, searchHPOTerms. rewrite Hm. cbn zeta.
  rewrite catalog_bind_unfold, searchTerms_unfold.
  cbn [fst snd sp_q sp_max sp_offset sp_category List.length app].
  rewrite Hq.
  match goal with
  | |- context [Js.truthy (error ?R)] => destruct (Js.truthy (error R))
  end; [reflexivity |].
  match goal with
  | |- context [List.length ?L =? 0] => destruct (List.length L =? 0)
  end; reflexivity.
Qed.

(** X13.  [searchHPOTerms] issues exactly one search request.  Its [max]
    is always sent: the default 20 when absent or zero, and any positive
    value unchanged, without a cap.  A zero or absent offset is left out,
    and the categories are forwarded as given, an absent array like an
    empty one. *)
Theorem search_request r query mx off cat :
  missing query = false ->
  (run_catalog (searchHPOTerms query mx off cat) r).2 =
    [Search query (Some (arg_or mx 20)) (query_param (Some (arg_or off 0)))
       (Js.or_nil cat)]
  /\ (Js.truthy_num mx = false -> arg_or mx 20 = 20)
  /\ (forall m, mx = Some (S m) -> arg_or mx 20 = S m)
  /\ (Js.truthy_num off = false -> query_param (Some (arg_or off 0)) = None)
  /\ (forall o, off = Some (S o) -> query_param (Some (arg_or off 0)) = Some (S o)).
Proof.
  intros Hm. split; [| split; [| split; [| split]]].
  - rewrite (searchHPOTerms_run r query mx off cat Hm). reflexivity.
  - intros H. unfold arg_or. rewrite H. reflexivity.
  - intros m ->. reflexivity.
  - intros H. unfold arg_or. rewrite H. reflexivity.
  - intros o ->. reflexivity.
Qed.

Lemma search_request_witness :
  (run_catalog (searchHPOTerms "seizure" (Some 5000) None None) sample_catalog).2 =
    [Search "seizure" (Some 5000) None []].
Proof.
  exact (proj1 (search_request sample_catalog "seizure" (Some 5000) None None eq_refl)).
Defined.

(** X14.  In [searchHPOTerms] a failed search gives an error result with
    the client's message, and a search that succeeds with no term gives the
    "No HPO terms found" notice, which is not an error, whatever total the
    source reports. *)
Theorem search_failure_and_no_hit r query mx off cat :
  missing query = false ->
  let resp := search_response
                (search_endpoint r 0 query (Some (arg_or mx 20))
                   (query_param (Some (arg_or off 0))) (Js.or_nil cat)) in
  (fetch_failed resp ->
     (run_catalog (searchHPOTerms query mx off cat) r).1 =
       Return {| text := "Error searching HPO terms: " +:+ Js.show_str (error resp);
                 isError := true |})
  /\ (forall total page size,
        fetch_ok resp {| res_terms := []; res_totalResults := total;
                         res_page := page; res_size := size |} ->
        (run_catalog (searchHPOTerms query mx off cat) r).1 =
          Return {| text := "No HPO terms found for query: " +:+ JsText.dq +:+ query
                              +:+ JsText.dq;
                    isError := false |}).
Proof.
  intros Hm resp. rewrite (searchHPOTerms_run r query mx off cat Hm). cbn zeta.
  fold resp. unfold fetch_failed, fetch_ok. split.
  - intros ->. reflexivity.
  - intros total page size [-> ->]. reflexivity.
Qed.

Lemma search_failure_and_no_hit_witness :
  (run_catalog (searchHPOTerms "unicorn" None None None) sample_catalog).1 =
    reply ("No HPO terms found for query: " +:+ JsText.dq +:+ "unicorn" +:+ JsText.dq).
Proof.
  apply (proj2 (search_failure_and_no_hit sample_catalog "unicorn" None None None
                  eq_refl) None None None).
  split; reflexivity.
Defined.

(** X15.  When the source reports no total (or a total of 0) for a search
    with hits, [searchHPOTerms] announces the number of terms on the page as
    the total; the only pagination line it can then add is the
    "Showing results" range, which it adds exactly when the offset is
    positive or the page is full, and whose bounds are offset + 1 and offset
    + number of terms shown. *)
Theorem search_total_fallback r query mx off cat hit hits total page size :
  missing query = false ->
  Js.truthy_num total = false ->
  let m := arg_or mx 20 in
  let o := arg_or off 0 in
  let n := List.length (hit :: hits) in
  fetch_ok (search_response
              (search_endpoint r 0 query (Some m) (query_param (Some o))
                 (Js.or_nil cat)))
           {| res_terms := hit :: hits; res_totalResults := total;
              res_page := page; res_size := size |} ->
  (run_catalog (searchHPOTerms query mx off cat) r).1 =
    reply ("Found " +:+ Js.show n +:+ " HPO terms matching "
             +:+ JsText.dq +:+ query +:+ JsText.dq +:+ ":" +:+ Js.nl +:+ Js.nl
             +:+ Js.join (Js.nl +:+ Js.nl) (map search_item (hit :: hits))
             +:+ (if (0 <? o) || (m <=? n)
                  then Js.nl +:+ Js.nl +:+ "Showing results " +:+ Js.show (o + 1)
                         +:+ "-" +:+ Js.show (o + n) +:+ " of " +:+ Js.show n
                         +:+ " total results."
                  else "")).
Proof.
  intros Hm Htot m o n [He Hd].
  rewrite (searchHPOTerms_run r query mx off cat Hm). cbn zeta.
  fold m o. rewrite He, Hd.
  assert (Hm20 : num_or m 20 = m) by (apply num_or_pos, arg_or_pos; lia).
  unfold search_pagination. rewrite Hm20.
  destruct total as [[| k] |]; [| discriminate Htot |];
    cbn [fst fmap option_fmap option_map default from_option mbind option_bind
         res_terms res_totalResults num_or]; unfold Datatypes.id;
    fold n; change (n =? 0) with false; cbn iota;
    rewrite Nat.ltb_irrefl; reflexivity.
Qed.

Lemma search_total_fallback_witness :
  let r := {| search_endpoint := fun _ _ _ _ _ => Fulfilled 200 (SearchBare sample_hits);
              terms_endpoint := terms_endpoint sample_catalog |} in
  (run_catalog (searchHPOTerms "seizure" (Some 2) None None) r).1 =
    reply ("Found 2 HPO terms matching " +:+ JsText.dq +:+ "seizure" +:+ JsText.dq
             +:+ ":" +:+ Js.nl +:+ Js.nl
             +:+ Js.join (Js.nl +:+ Js.nl) (map search_item sample_hits)
             +:+ Js.nl +:+ Js.nl +:+ "Showing results 1-2 of 2 total results.").
Proof.
  intros r.
  rewrite (search_total_fallback r "seizure" (Some 2) None None _ _ None None None
             eq_refl eq_refl (conj eq_refl eq_refl)).
  reflexivity.
Defined.




(** ** The dispatcher *)

Section Dispatch.














End Dispatch.



(** X18.  A tool name outside the twelve of the [switch] raises [McpError]
    with code [MethodNotFound] and the message "Unknown tool: " followed by
    the name, whatever the arguments, without any request. *)
Theorem dispatch_unknown_tool name args s :
  name ∉ tool_names ->
  callTool name args s = (McpError MethodNotFound ("Unknown tool: " +:+ name), []).
Proof.
  intros Hout. unfold callTool.
  assert (Hnone : tool_call name args = None).
  { unfold tool_call, tool_names in *.
    repeat match goal with
    | |- context [String.eqb name ?t] =>
        destruct (String.eqb_spec name t) as [-> | _];
        [exfalso; apply Hout; set_solver |]
    end.
    reflexivity. }
  rewrite Hnone. reflexivity.
Qed.

Lemma dispatch_unknown_tool_witness :
  callTool "get_hpo_siblings" (Some no_args) sample_world =
    (McpError MethodNotFound "Unknown tool: get_hpo_siblings", []).
Proof.
  apply dispatch_unknown_tool. unfold tool_names.
  intros Hin. repeat (apply elem_of_cons in Hin as [Heq | Hin]; [discriminate Heq |]).
  apply elem_of_nil in Hin. exact Hin.
Defined.

(** X19.  Called without an arguments object, no tool issues a request and
    none raises [InvalidParams]: the handler fails on the first property it
    reads, and since that [TypeError]'s message (in V8's wording) does not
    contain "required", the dispatcher returns its generic error result. *)
Theorem dispatch_without_arguments name s :
  name ∈ tool_names ->
  exists p,
    callTool name None s =
      (ToolReturn {| text := "Error: Cannot read properties of undefined (reading '"
                               +:+ p +:+ "')";
                     isError := true |}, []).
Proof.
  unfold tool_names. intros Hin.
  repeat (apply elem_of_cons in Hin as [-> | Hin]);
    [ exists "query" | exists "id" | exists "max" | exists "id" | exists "id"
    | exists "id" | exists "id" | exists "id" | exists "id" | exists "term1"
    | exists "id" | exists "ids" | apply elem_of_nil in Hin; contradiction ];
    reflexivity.
Qed.

Lemma dispatch_without_arguments_witness :
  exists p,
    callTool "batch_get_hpo_terms" None sample_world =
      (ToolReturn {| text := "Error: Cannot read properties of undefined (reading '"
                               +:+ p +:+ "')";
                     isError := true |}, []).
Proof.
  apply dispatch_without_arguments.
  apply (bool_decide_unpack _). vm_compute. exact I.
Defined.

(** ** More on the aggregate handlers *)

(** X20.  [getHPOTermPath] fails fast and hard.  When the term fetch fails
    it returns the error after that single request, without asking for the
    ancestors.  When the term fetch did not fail but the ancestor fetch
    does, the result is an error as well (the closure is not degraded to an
    empty list here).  When the term fetch succeeded without a record, the
    ancestors are still requested and the result is the not-found notice,
    which is not an error. *)
Theorem path_fail_fast r x :
  missing x = false ->
  let T := fetched_term r 0 x in
  let A := fetched_related r 1 Ancestors x 200 0 in
  let q1 := GetTerm (formatHPOId x) in
  let q2 := GetRelated Ancestors (formatHPOId x) (Some 200) None in
  (fetch_failed T ->
     run (getHPOTermPath x) r =
       (reply_error ("Error retrieving term " +:+ x +:+ ": " +:+ Js.show_str (error T)),
        [q1]))
  /\ (Js.truthy (error T) = false -> fetch_failed A ->
        run (getHPOTermPath x) r =
          (reply_error ("Error retrieving ancestors for " +:+ x +:+ ": "
                          +:+ Js.show_str (error A)), [q1; q2]))
  /\ (fetch_not_found T -> Js.truthy (error A) = false ->
        run (getHPOTermPath x) r = (reply ("Term " +:+ x +:+ " not found"), [q1; q2])).
Proof.
  intros Hm T A q1 q2. rewrite (getHPOTermPath_run r x Hm). cbn zeta.
  fold T A q1 q2. unfold fetch_failed, fetch_not_found. split; [| split].
  - intros ->. reflexivity.
  - intros -> ->. reflexivity.
  - intros [-> ->] ->. reflexivity.
Qed.

Lemma path_fail_fast_witness :
  run (getHPOTermPath "HP:0001250")
      (answer_list sample_source 1 (Rejected timeout_error)) =
    (reply_error "Error retrieving ancestors for HP:0001250: HPO API is not responding. Please check your internet connection.",
     [GetTerm "HP:0001250"; GetRelated Ancestors "HP:0001250" (Some 200) None]).
Proof.
  apply (proj1 (proj2 (path_fail_fast
                         (answer_list sample_source 1 (Rejected timeout_error))
                         "HP:0001250" eq_refl))); reflexivity.
Defined.

(** X21.  [getHPOTermStats] issues its five requests (term, ancestors,
    descendants, parents, children, with windows 1000, 1000, 100, 100) in
    this order whatever their outcomes, also when the term fetch fails; a
    term fetch that succeeds without a record gives the not-found notice,
    which is not an error. *)
Theorem stats_five_requests r x :
  missing x = false ->
  (run (getHPOTermStats x) r).2 =
    [GetTerm (formatHPOId x);
     GetRelated Ancestors (formatHPOId x) (Some 1000) None;
     GetRelated Descendants (formatHPOId x) (Some 1000) None;
     GetRelated Parents (formatHPOId x) (Some 100) None;
     GetRelated Children (formatHPOId x) (Some 100) None]
  /\ (fetch_not_found (fetched_term r 0 x) ->
        (run (getHPOTermStats x) r).1 =
          Return {| text := "Term " +:+ x +:+ " not found"; isError := false |}).
Proof.
  intros Hm. rewrite (getHPOTermStats_run r x Hm). cbn zeta.
  split; [reflexivity |]. intros [-> ->]. reflexivity.
Qed.

Lemma stats_five_requests_witness :
  List.length (run (getHPOTermStats "HP:9999999") sample_source).2 = 5.
Proof.
  rewrite (proj1 (stats_five_requests sample_source "HP:9999999" eq_refl)).
  reflexivity.
Defined.

Section ShortIds.

Lemma digits_never_listed x anc :
  Js.test_digits x = true ->
  Forall (fun a => Js.startsWith (st_id a) "HP:" = true) anc ->
  existsb (fun a => String.eqb (st_id a) x) anc = false.
Proof.
  intros Hd Hall. induction Hall as [| a anc Ha _ IH]; [reflexivity |].
  cbn [existsb]. rewrite IH, orb_false_r.
  destruct (String.eqb_spec (st_id a) x) as [Heq | _]; [| reflexivity].
  rewrite Heq, (digits_not_prefixed x Hd) in Ha. discriminate Ha.
Qed.

End ShortIds.

(** X22.  [compareHPOTerms] compares the ancestors' ids with the term ids
    as they were passed, not as the client formats them.  For two ids given
    in short (digits only) form, over closures whose ids all carry the
    [HP:] prefix, it therefore never reports that one term is a descendant
    of the other: the relationship is "Related through common ancestors"
    when the closures share an id, and "No direct relationship" otherwise. *)
Theorem compare_short_ids_miss_descent A B ancA ancB :
  Js.test_digits A = true ->
  Js.test_digits B = true ->
  Forall (fun a => Js.startsWith (st_id a) "HP:" = true) ancA ->
  Forall (fun a => Js.startsWith (st_id a) "HP:" = true) ancB ->
  relationship A B ancA ancB =
    if 0 <? List.length (commonAncestors ancA ancB)
    then "Related through common ancestors"
    else "No direct relationship".
Proof.
  intros HA HB HallA HallB. unfold relationship.
  rewrite (digits_never_listed B ancA HB HallA), (digits_never_listed A ancB HA HallB).
  reflexivity.
Qed.

Lemma compare_short_ids_miss_descent_witness :
  relationship "1250" "707"
    [physiology_ref; nervous_ref; abnormality_ref; all_ref]
    [abnormality_ref; all_ref]
  = "Related through common ancestors"
  /\ relationship "HP:0001250" "HP:0000707"
       [physiology_ref; nervous_ref; abnormality_ref; all_ref]
       [abnormality_ref; all_ref]
     = "HP:0001250 is a descendant of HP:0000707".
Proof.
  split; [| reflexivity].
  rewrite (compare_short_ids_miss_descent "1250" "707"
             [physiology_ref; nervous_ref; abnormality_ref; all_ref]
             [abnormality_ref; all_ref] eq_refl eq_refl);
    [reflexivity | repeat constructor | repeat constructor].
Defined.

Lemma filter_split_length (l : list BatchEntry) :
  List.length (successful l) + List.length (failed l) = List.length l.
Proof.
  unfold successful, failed. induction l as [| o os IH]; [reflexivity |].
  cbn [List.filter]. destruct (be_success o); cbn [negb List.length]; lia.
Qed.

(** X23.  The two lists [batchGetHPOTerms] reports split the outcomes: an
    outcome is among the successes exactly when it is an outcome with
    [success] set, among the failures exactly when it is one with [success]
    clear, and the two lists together are as long as the input, so the
    summary "k/n" and the number of failures add up. *)
Theorem batch_partition_complete r ids :
  let results := batch_results r ids in
  List.length (successful results) + List.length (failed results) = List.length ids
  /\ (forall o, o ∈ successful results <-> o ∈ results /\ be_success o = true)
  /\ (forall o, o ∈ failed results <-> o ∈ results /\ be_success o = false).
Proof.
  intros results.
  assert (Hlen : List.length results = List.length ids).
  { unfold results, batch_results. apply length_imap. }
  split; [| split].
  - rewrite <- Hlen. apply filter_split_length.
  - intros o. unfold successful. rewrite !list_elem_of_In, filter_In. reflexivity.
  - intros o. unfold failed. rewrite !list_elem_of_In, filter_In.
    rewrite negb_true_iff. reflexivity.
Qed.

(** X24.  In a batch, an id whose fetch succeeds without a record counts
    as a success: its outcome has [success] set and no data, and it is listed
    among the retrieved terms under the name "Unknown". *)
Theorem batch_absent_record_is_success r ids n x :
  ids !! n = Some x ->
  fetch_not_found (fetched_term r n x) ->
  exists o,
    batch_results r ids !! n = Some o
    /\ be_success o = true /\ be_data o = None
    /\ o ∈ successful (batch_results r ids)
    /\ success_item o = "• " +:+ x +:+ ": Unknown" +:+ Js.nl +:+ Js.nl.
Proof.
  intros Hn [He Hd].
  exists (batch_entry x (fetched_term r n x)).
  assert (Hlook := batch_results_lookup r ids n x Hn).
  assert (Hs : be_success (batch_entry x (fetched_term r n x)) = true)
    by (cbn [batch_entry be_success]; rewrite He; reflexivity).
  split; [exact Hlook | split; [exact Hs | split; [exact Hd | split]]].
  - unfold successful. rewrite list_elem_of_In, filter_In, <- list_elem_of_In.
    split; [| exact Hs]. eapply list_elem_of_lookup_2, Hlook.
  - unfold success_item. cbn [batch_entry be_id be_data]. rewrite Hd. reflexivity.
Qed.

Lemma batch_absent_record_is_success_witness :
  let r := answer_term sample_source 0 (Fulfilled 200 None) in
  exists o,
    batch_results r ["HP:0001250"] !! 0 = Some o
    /\ be_success o = true /\ be_data o = None
    /\ o ∈ successful (batch_results r ["HP:0001250"])
    /\ success_item o = "• " +:+ "HP:0001250" +:+ ": Unknown" +:+ Js.nl +:+ Js.nl.
Proof.
  intros r.
  apply (batch_absent_record_is_success r ["HP:0001250"] 0 "HP:0001250");
    [reflexivity | split; reflexivity].
Defined.

(** ** Excerpts *)

Section Excerpt.

Lemma substring0_length s : forall n,
  String.length (String.substring 0 n s) = Nat.min n (String.length s).
Proof.
  induction s as [| c s IH]; intros [| n]; try reflexivity.
  change (String.substring 0 (S n) (String c s))
    with (String c (String.substring 0 n s)).
  change (String.length (String c (String.substring 0 n s)))
    with (S (String.length (String.substring 0 n s))).
  rewrite IH. reflexivity.
Qed.

Lemma substring0_all s : forall n,
  String.length s <= n -> String.substring 0 n s = s.
Proof.
  induction s as [| c s IH]; intros [| n] Hn; try reflexivity.
  - cbn in Hn. lia.
  - change (String.substring 0 (S n) (String c s))
      with (String c (String.substring 0 n s)).
    rewrite IH; [reflexivity |]. cbn in Hn. lia.
Qed.

End Excerpt.

(** X25.  The excerpt the statistics and batch handlers show of a
    definition or comment ([substring(0, n)] plus an ellipsis when the text
    is longer than [n]) is the whole text when it has at most [n]
    characters, and otherwise its first [n] characters followed by "...";
    it is never longer than [n + 3]. *)
Theorem excerpt_bounds s n :
  (String.length s <= n -> excerpt s n = s)
  /\ (n < String.length s ->
        excerpt s n = String.substring 0 n s +:+ "..."
        /\ String.length (excerpt s n) = n + 3)
  /\ String.length (excerpt s n) <= n + 3.
Proof.
  assert (Hshort : String.length s <= n -> excerpt s n = s).
  { intros Hle. unfold excerpt, Js.substring0.
    rewrite (substring0_all s n Hle), (proj2 (Nat.ltb_ge n (String.length s)) Hle).
    apply str_app_nil_r. }
  assert (Hlong : n < String.length s ->
                  excerpt s n = String.substring 0 n s +:+ "..."
                  /\ String.length (excerpt s n) = n + 3).
  { intros Hlt. unfold excerpt, Js.substring0.
    rewrite (proj2 (Nat.ltb_lt n (String.length s)) Hlt).
    split; [reflexivity |].
    rewrite str_length_app, substring0_length.
    change (String.length "...") with 3. lia. }
  split; [exact Hshort | split; [exact Hlong |]].
  destruct (Nat.le_gt_cases (String.length s) n) as [Hle | Hlt].
  - rewrite (Hshort Hle). lia.
  - destruct (Hlong Hlt) as [_ ->]. lia.
Qed.

Lemma excerpt_bounds_witness :
  excerpt "Seizure" 200 = "Seizure" /\ excerpt "Seizure" 3 = "Sei...".
Proof.
  destruct (excerpt_bounds "Seizure" 200) as [Hshort _].
  destruct (excerpt_bounds "Seizure" 3) as (_ & Hlong & _).
  split.
  - apply Hshort. vm_compute. lia.
  - apply Hlong. vm_compute. lia.
Defined.

(** ** Common ancestors *)

Section Common.

Implicit Types (ancA ancB : list SimpleOntologyTerm).

Lemma common_elem ancA ancB x :
  x ∈ commonAncestors ancA ancB <-> x ∈ ancB /\ st_id x ∈ map st_id ancA.
Proof.
  unfold commonAncestors, ancestors1Ids.
  rewrite list_elem_of_In, filter_In, bool_decide_eq_true, elem_of_list_to_set.
  rewrite <- list_elem_of_In. reflexivity.
Qed.

Lemma id_elem ancA i :
  i ∈ map st_id ancA <-> exists x, x ∈ ancA /\ st_id x = i.
Proof.
  rewrite list_elem_of_In, in_map_iff. split.
  - intros (x & Hx & Hin). exists x. rewrite list_elem_of_In. auto.
  - intros (x & Hin & Hx). exists x. rewrite list_elem_of_In in Hin. auto.
Qed.

Lemma common_nonempty ancA ancB :
  (0 <? List.length (commonAncestors ancA ancB)) = true
  <-> exists i, i ∈ map st_id ancA /\ i ∈ map st_id ancB.
Proof.
  split.
  - destruct (commonAncestors ancA ancB) as [| x xs] eqn:E; [discriminate |].
    intros _. assert (Hx : x ∈ commonAncestors ancA ancB) by (rewrite E; constructor).
    apply common_elem in Hx as [HB HA].
    exists (st_id x). split; [exact HA |]. apply id_elem. exists x. auto.
  - intros (i & HA & HB). apply id_elem in HB as (x & Hx & <-).
    assert (Hc : x ∈ commonAncestors ancA ancB) by (apply common_elem; auto).
    destruct (commonAncestors ancA ancB); [inversion Hc | reflexivity].
Qed.

Lemma common_nonempty_sym ancA ancB :
  (0 <? List.length (commonAncestors ancA ancB))
  = (0 <? List.length (commonAncestors ancB ancA)).
Proof.
  apply eq_true_iff_eq. rewrite !common_nonempty.
  split; intros (i & H1 & H2); exists i; auto.
Qed.

End Common.

(** X26.  The common ancestors [compareHPOTerms] computes are exactly the
    entries of the second closure whose id occurs in the first closure, in
    the order of the second closure; when the second closure has no
    repeated id, neither have they. *)
Theorem common_ancestors_exact ancA ancB :
  (forall x, x ∈ commonAncestors ancA ancB <-> x ∈ ancB /\ st_id x ∈ map st_id ancA)
  /\ sublist (commonAncestors ancA ancB) ancB
  /\ (NoDup (map st_id ancB) -> NoDup (map st_id (commonAncestors ancA ancB))).
Proof.
  split; [intros x; apply common_elem | split].
  - unfold commonAncestors. apply filter_sublist.
  - intros Hnd. apply (sublist_NoDup _ (map st_id ancB) Hnd).
    apply map_sublist. unfold commonAncestors. apply filter_sublist.
Qed.

Lemma common_ancestors_exact_witness :
  NoDup (map st_id (commonAncestors
                      [physiology_ref; nervous_ref; abnormality_ref; all_ref]
                      [head_ref; abnormality_ref; all_ref])).
Proof.
  apply common_ancestors_exact.
  apply (bool_decide_unpack _). vm_compute. exact I.
Defined.

(** X27.  The relationship [compareHPOTerms] reports does not depend on
    the order of its two arguments, unless each term is listed among the
    other's ancestors: swapping the terms together with their closures gives
    the same sentence. *)
Theorem relationship_symmetric A B ancA ancB :
  ~ (B ∈ map st_id ancA /\ A ∈ map st_id ancB) ->
  relationship B A ancB ancA = relationship A B ancA ancB.
Proof.
  intros Hnot. unfold relationship.
  rewrite !some_id_spec, (common_nonempty_sym ancB ancA).
  destruct (bool_decide (B ∈ map st_id ancA)) eqn:E1;
    destruct (bool_decide (A ∈ map st_id ancB)) eqn:E2; try reflexivity.
  apply bool_decide_eq_true in E1, E2. exfalso. apply Hnot. auto.
Qed.

Lemma relationship_symmetric_witness :
  relationship "HP:0000707" "HP:0001250"
    [abnormality_ref; all_ref]
    [physiology_ref; nervous_ref; abnormality_ref; all_ref]
  = "HP:0001250 is a descendant of HP:0000707".
Proof.
  rewrite (relationship_symmetric "HP:0001250" "HP:0000707"
             [physiology_ref; nervous_ref; abnormality_ref; all_ref]
             [abnormality_ref; all_ref]).
  - reflexivity.
  - apply (bool_decide_unpack _). vm_compute. exact I.
Defined.

(** ** The other handlers on the sample hierarchy *)

Example detail_of_seizure :
  (run (getHPOTerm "HP:0001250")
     (answer_term sample_source 0
        (Fulfilled 200
           (Some {| id := "HP:0001250"; name := "Seizure";
                    definition := Some "An intermittent abnormality.";
                    comment := None;
                    synonyms := Some ["Epileptic seizure"; "Seizures"];
                    xrefs := Some []; alternativeIds := None;
                    isObsolete := Some true; replacement := Some "HP:0020219";
                    subset := None;
                    children := Some [ref "HP:0002069" "Bilateral tonic-clonic seizure"];
                    parents := Some [physiology_ref];
                    ancestors := None; descendants := None |})))).1 =
  reply "**HPO Term: HP:0001250**
**Name:** Seizure

**Definition:** An intermittent abnormality.

**Synonyms:** Epileptic seizure, Seizures

**Parent Terms:**
  • HP:0012638: Abnormal nervous system physiology

**Child Terms:**
  • HP:0002069: Bilateral tonic-clonic seizure

**Status:** This term is obsolete (replaced by HP:0020219)".
Proof. vm_compute. reflexivity. Qed.

Example ancestors_of_physiology :
  run (getHPOAncestors "12638" None None) sample_source =
  (reply "Ancestors of 12638:

• HP:0000707: Abnormality of the nervous system
• HP:0000118: Phenotypic abnormality
• HP:0000001: All",
   [GetRelated Ancestors "HP:0012638" (Some 50) None]).
Proof. vm_compute. reflexivity. Qed.

Example search_for_seizure :
  run_catalog (searchHPOTerms "seizure" None None None) sample_catalog =
  (reply ("Found 57 HPO terms matching " +:+ JsText.dq +:+ "seizure" +:+ JsText.dq
            +:+ ":

• HP:0001250: Seizure
  Definition: An intermittent abnormality of nervous system physiology.
  Synonyms: Epileptic seizure, Seizures

• HP:0002069: Bilateral tonic-clonic seizure

Showing first 2 of 57 total results."),
   [Search "seizure" (Some 20) None []]).
Proof. vm_compute. reflexivity. Qed.

Example all_terms_second_page :
  run_catalog (getAllHPOTerms (Some 2) (Some 4)) sample_catalog =
  (reply "HPO Terms (showing 2 terms starting from position 5):

• HP:0001250: Seizure
• HP:0000152: Abnormality of head or neck

To see more terms, use a higher offset value.",
   [AllTerms (Some 2) (Some 4)]).
Proof. vm_compute. reflexivity. Qed.

Example validate_short_form :
  run (validateHPOId "0001250") sample_source =
  (reply ("✅ Valid HPO ID: " +:+ JsText.dq +:+ "0001250" +:+ JsText.dq
            +:+ " (formatted as " +:+ JsText.dq +:+ "HP:0001250" +:+ JsText.dq
            +:+ ")
Term exists: Seizure"),
   [GetTerm "HP:0001250"]).
Proof. vm_compute. reflexivity. Qed.

Example call_compare_through_dispatcher :
  (callTool "compare_hpo_terms"
     (Some {| arg_query := None; arg_id := None;
              arg_term1 := Some "HP:0001250"; arg_term2 := None;
              arg_ids := None; arg_max := None; arg_offset := None;
              arg_category := None |})
     sample_world) =
  (McpError InvalidParams
     "Both term1 and term2 parameters are required and must be strings", []).
Proof. vm_compute. reflexivity. Qed.
